(** * climada_backend: a verification model of the CLIMADA web backend

    The program is a Flask application (src/climada_backend.py) with six
    routes that forward to the CLIMADA library and turn its storm tracks
    into GeoJSON.  This file embeds the repository-owned logic: the
    Saffir-Simpson lookup, the track-to-GeoJSON translation, the response
    cache and the catch-all error handling, with the library and the Python
    builtins that parse text taken as parameters. *)

From Stdlib Require Import ZArith QArith List String Ascii Lia Bool DecimalString DecimalZ.
From Stdlib Require Import Floats.SpecFloat.
From stdpp Require Import base option list strings gmap.

Local Open Scope Z_scope.
#[local] Set Warnings "-register-all".

(** ** IEEE 754 binary64 values

    numpy's float64 and Python's float are IEEE 754 binary64.  A value is a
    [spec_float] of the Standard Library; comparisons are [SFleb] and
    [SFltb], which answer [false] as soon as one side is NaN, as Python's
    [>=] and [<] do. *)
Module Float64.

Definition prec : Z := 53.
Definition emax : Z := 1024.

(** [float(k)] for an integer literal [k] of the source. *)
Definition of_Z (k : Z) : spec_float := binary_normalize prec emax k 0 false.

(** [np.isnan] *)
Definition isnan (x : spec_float) : bool :=
  match x with S754_nan => true | _ => false end.

(** [x >= y], [x <= y] and [x < y] *)
Definition geb (x y : spec_float) : bool := SFleb y x.
Definition leb (x y : spec_float) : bool := SFleb x y.
Definition ltb (x y : spec_float) : bool := SFltb x y.

(** Well-formed binary64 values: the mantissa is normalised. *)
Definition valid (x : spec_float) : bool := valid_binary prec emax x.

(** Whether the number that [x] denotes is at least the integer [k]: plus
    infinity is, minus infinity and NaN are not, and a finite value
    [(-1)^s * m * 2^e] is compared exactly, in integers. *)
Definition value_ge (x : spec_float) (k : Z) : bool :=
  match x with
  | S754_nan => false
  | S754_infinity s => negb s
  | S754_zero _ => k <=? 0
  | S754_finite s m e =>
      let v := if s then Z.neg m else Z.pos m in
      if 0 <=? e then k <=? v * 2 ^ e else k * 2 ^ (- e) <=? v
  end.

End Float64.

(** ** The Saffir-Simpson lookup (get_historical_tracks, lines 93-104) *)

Definition saffir_simpson (wind_kt : spec_float) : Z :=
  if Float64.geb wind_kt (Float64.of_Z 137) then 5
  else if Float64.geb wind_kt (Float64.of_Z 113) then 4
  else if Float64.geb wind_kt (Float64.of_Z 96) then 3
  else if Float64.geb wind_kt (Float64.of_Z 83) then 2
  else if Float64.geb wind_kt (Float64.of_Z 64) then 1
  else 0.

(** Lines 91-107: the category appended for one track point.  The argument is
    [None] when the track has no [max_sustained_wind] attribute and
    [Some w] when [track.max_sustained_wind[i]] is [w]. *)
Definition point_category (wind : option spec_float) : Z :=
  match wind with
  | Some w => if negb (Float64.isnan w) then saffir_simpson w else 0
  | None => 0
  end.

(** ** Python values that travel through the handlers *)

(** Decoded JSON, and the values handed to [jsonify].  A [JObj] is a Python
    dict in insertion order; its keys are distinct. *)
Inductive json : Type :=
| JNull
| JBool (b : bool)
| JInt (n : Z)
| JFloat (x : spec_float)
| JStr (s : string)
| JArr (items : list json)
| JObj (fields : list (string * json)).

(** An instance of Python's [Exception], the class that the handlers catch:
    its class name and [str(e)].  The texts of the exceptions raised by
    builtins are CPython's; no property below depends on a text. *)
Record exn : Type := Exn { exn_class : string; exn_str : string }.

Definition result (A : Type) : Type := exn + A.

#[export] Instance result_ret : MRet result := fun _ x => inr x.
#[export] Instance result_bind : MBind result :=
  fun _ _ f m => match m with inl e => inl e | inr x => f x end.

Definition raise {A : Type} (e : exn) : result A := inl e.

(** [str(n)] for an int: decimal digits, with a leading minus sign. *)
Definition str_of_Z (n : Z) : string := NilEmpty.string_of_int (Z.to_int n).

(** [s.split(sep)] for a one-character ASCII separator (a string is the
    UTF-8 bytes of the Python str, in which [sep] occurs as itself only). *)
Fixpoint split_on (sep : ascii) (s : string) : list string :=
  match s with
  | EmptyString => [EmptyString]
  | String c s' =>
      if Ascii.eqb c sep then EmptyString :: split_on sep s'
      else match split_on sep s' with
           | w :: ws => String c w :: ws
           | [] => [String c EmptyString]
           end
  end.

(** The name CPython prints for the type of a decoded JSON value. *)
Definition type_name (j : json) : string :=
  match j with
  | JNull => "NoneType"
  | JBool _ => "bool"
  | JInt _ => "int"
  | JFloat _ => "float"
  | JStr _ => "str"
  | JArr _ => "list"
  | JObj _ => "dict"
  end.

(** First binding of a key in an association list: a dict lookup, and
    [MultiDict.get], which answers with the first value of the key. *)
Fixpoint assoc {V : Type} (k : string) (kvs : list (string * V)) : option V :=
  match kvs with
  | [] => None
  | (k', v) :: rest => if String.eqb k k' then Some v else assoc k rest
  end.

(** [data.get(key, default)] on a decoded body: only a dict has [get]. *)
Definition dict_get (data : json) (key : string) (dflt : json) : result json :=
  match data with
  | JObj fields => mret (default dflt (assoc key fields))
  | _ => raise (Exn "AttributeError"
                  ("'" +:+ type_name data +:+ "' object has no attribute 'get'"))
  end.

(** ** Requests, responses and the server state *)

(** What a handler reads of the request: [request.args] (a MultiDict, kept as
    the list of its pairs) and the outcome of evaluating [request.json]. *)
Record request : Type := Request {
  args : list (string * string);
  json_body : result json
}.

(** [request.args.get(key, default)] *)
Definition args_get (req : request) (key dflt : string) : string :=
  default dflt (assoc key (args req)).

(** A Flask response: the value given to [jsonify] and the status code. *)
Record response : Type := Response { body : json; status : Z }.

(** [return jsonify(v)] *)
Definition ok (v : json) : response := Response v 200.

(** [return jsonify({'error': str(e)}), 500] *)
Definition error_response (e : exn) : response :=
  Response (JObj [("error", JStr (exn_str e))]) 500.

(** ** Library objects *)

(** A storm track of [TCTracks.data]: the arrays read by the handlers and
    the attributes they probe with [hasattr]. *)
Record track : Type := Track {
  lat : list spec_float;
  lon : list spec_float;
  max_sustained_wind : option (list spec_float);
  name : option string;
  sid : option string;
  season : option Z
}.

(** What [calculate_impact] reads of a LitPop exposure: [gdf.value.sum()]
    and [len(gdf)]. *)
Record exposure : Type := Exposure { total_value : spec_float; n_assets : Z }.

(** The CLIMADA entry points the handlers call.  Each may raise.  The two
    track functions stand for the [data] list of the object the call
    returns; a returned object without [data] counts as a raise.  Two
    requests may face libraries that behave differently (another data file,
    another random draw), so the library is an argument of every handler. *)
Record climada : Type := Climada {
  climada_version : result string;
  from_ibtracs_netcdf : Z * Z -> json -> result (list track);
  calc_perturbed_trajectories : list track -> Z -> result (list track);
  litpop_from_countries : json -> result exposure;
  impact_func_set : result unit
}.

(** One entry into the library, as recorded in the server state. *)
Inductive lib_call : Type :=
| CallVersion
| CallIbtracs (year_range : Z * Z) (basin : json)
| CallPerturbed (nb_synth_tracks : Z)
| CallLitPop (country : json)
| CallImpactFuncSet.

(** The module-level [cache] dict, and the library calls made so far. *)
Record state : Type := State {
  cache : gmap string json;
  calls : list lib_call
}.

(** Handler code: it reads and writes the state and may raise; the state
    written before a raise stays written. *)
Definition M (A : Type) : Type := state -> result A * state.

#[export] Instance M_ret : MRet M := fun _ x s => (inr x, s).
#[export] Instance M_bind : MBind M :=
  fun _ _ f m s =>
    match m s with
    | (inl e, s') => (inl e, s')
    | (inr x, s') => f x s'
    end.

Definition lift {A : Type} (r : result A) : M A := fun s => (r, s).

(** A call into the library: recorded, then its outcome. *)
Definition call {A : Type} (c : lib_call) (r : result A) : M A :=
  fun s => (r, State (cache s) (calls s ++ [c])).

(** [key not in cache] *)
Definition cache_missing (key : string) : M bool :=
  fun s => (inr (bool_decide (cache s !! key = None)), s).

(** [cache[key] = v] *)
Definition cache_store (key : string) (v : json) : M unit :=
  fun s => (inr tt, State (<[key := v]> (cache s)) (calls s)).

(** [cache[key]] *)
Definition cache_load (key : string) : M json :=
  fun s =>
    match cache s !! key with
    | Some v => (inr v, s)
    | None => (raise (Exn "KeyError" ("'" +:+ key +:+ "'")), s)
    end.

(** [try: ... except Exception as e: return jsonify({'error': str(e)}), 500] *)
Definition try_except (m : M response) : state -> response * state :=
  fun s =>
    match m s with
    | (inr r, s') => (r, s')
    | (inl e, s') => (error_response e, s')
    end.

(** numpy's message for an index past the end of an array. *)
Definition out_of_bounds (i size : nat) : exn :=
  Exn "IndexError"
      ("index " +:+ str_of_Z (Z.of_nat i) +:+ " is out of bounds for axis 0 with size "
       +:+ str_of_Z (Z.of_nat size)).

(** [xs[i]] on an array, for [i >= 0]. *)
Definition getitem {A : Type} (xs : list A) (i : nat) : result A :=
  match xs !! i with
  | Some x => mret x
  | None => raise (out_of_bounds i (length xs))
  end.

(** A loop with an accumulator whose body may raise. *)
Fixpoint foldM {A B : Type} (f : B -> A -> result B) (acc : B) (xs : list A)
  : result B :=
  match xs with
  | [] => mret acc
  | x :: xs' => acc' ← f acc x; foldM f acc' xs'
  end.

(** ** Python and numpy builtins

    The handlers parse text with [int] and [float], divide a decoded JSON
    value with [/] and reduce an array with [np.nanmax].  Their outcome on
    every input is taken as given; each may raise. *)
Record python : Type := Python {
  py_int : string -> result Z;              (* int(s) for a str s *)
  py_float : string -> result spec_float;   (* float(s) for a str s *)
  int_truediv : json -> Z -> result Z;      (* int(n / d) *)
  np_nanmax : list spec_float -> result spec_float
}.

(** [j == s] for a decoded JSON value and a str literal. *)
Definition json_is_str (j : json) (s : string) : bool :=
  match j with
  | JStr t => String.eqb t s
  | _ => false
  end.

(** [enumerate(xs)], counting from [i]. *)
Fixpoint enumerate_from {A : Type} (i : nat) (xs : list A) : list (nat * A) :=
  match xs with
  | [] => []
  | x :: xs' => (i, x) :: enumerate_from (S i) xs'
  end.

(** [f"tracks_{basin}_{year_min}_{year_max}"] (line 63) *)
Definition cache_key (basin : string) (year_min year_max : Z) : string :=
  "tracks_" +:+ basin +:+ "_" +:+ str_of_Z year_min +:+ "_" +:+ str_of_Z year_max.

(** [[float(track.lon[i]), float(track.lat[i])]] *)
Definition coordinate (lon_i lat_i : spec_float) : json :=
  JArr [JFloat lon_i; JFloat lat_i].

(** The 'geometry' member of a feature. *)
Definition line_string (coordinates : list json) : json :=
  JObj [("type", JStr "LineString"); ("coordinates", JArr coordinates)].

(** [track.sid] *)
Definition track_sid (t : track) : result string :=
  match sid t with
  | Some s => mret s
  | None => raise (Exn "AttributeError" "'Dataset' object has no attribute 'sid'")
  end.

(** [int(max(categories)) if categories else 0] *)
Definition max_category (categories : list Z) : Z :=
  match categories with
  | [] => 0
  | c :: cs => fold_left Z.max cs c
  end.

(** Lines 171-187: the factors of a scenario, [None] when the branch is not
    entered.  The source gives them to the logger and to nothing else. *)
Definition climate_factors (scenario : json) : option (Q * Q) :=
  if negb (json_is_str scenario "historical") then
    Some (if json_is_str scenario "rcp26" then (11 # 10, 105 # 100)
          else if json_is_str scenario "rcp45" then (12 # 10, 11 # 10)
          else if json_is_str scenario "rcp85" then (14 # 10, 115 # 100)
          else (1, 1))%Q
  else None.

(** The placeholder table of get_return_periods (lines 322-328). *)
Definition return_period_table : json :=
  JObj [("10", JInt 90); ("25", JInt 110); ("50", JInt 125);
        ("100", JInt 140); ("250", JInt 155)].

(** The routes of the application. *)
Inductive endpoint : Type :=
| Version | HistoricalTracks | SyntheticTracks | WindField | Impact | ReturnPeriods.

(** ** The handlers

    Each handler is the body of its [try] block under [try_except].  The
    [logger] calls only write to the log and are left out. *)

Section Handlers.

Variable py : python.

(** *** get_version (lines 37-47) *)

Definition get_version_body (lib : climada) : M response :=
  v ← call CallVersion (climada_version lib);
  mret (ok (JObj [("climada_version", JStr v);
                  ("status", JStr "operational");
                  ("modules", JArr [JStr "hazard"; JStr "entity"; JStr "engine"])])).

Definition get_version (lib : climada) : state -> response * state :=
  try_except (get_version_body lib).

(** *** get_historical_tracks (lines 50-140) *)

(** [int(request.args.get(key, dflt))] with an int default. *)
Definition int_arg (req : request) (key : string) (dflt : Z) : result Z :=
  match assoc key (args req) with
  | Some s => py_int py s
  | None => mret dflt
  end.

(** The three query parameters as the handler uses them (lines 59-61). *)
Definition historical_params (req : request) : result (string * Z * Z) :=
  let basin := args_get req "basin" "NA" in
  year_min ← int_arg req "year_min" 2010;
  year_max ← int_arg req "year_max" 2020;
  mret (basin, year_min, year_max).

(** One turn of the loop of lines 86-107. *)
Definition historical_point (t : track) (acc : list json * list Z) (i : nat)
  : result (list json * list Z) :=
  lat_i ← getitem (lat t) i;
  if negb (Float64.isnan lat_i) then
    lon_i ← getitem (lon t) i;
    if negb (Float64.isnan lon_i) then
      cat ← match max_sustained_wind t with
            | Some winds => w ← getitem winds i; mret (point_category (Some w))
            | None => mret (point_category None)
            end;
      mret (acc.1 ++ [coordinate lon_i lat_i], acc.2 ++ [cat])
    else mret acc
  else mret acc.

(** Lines 83-107: [coordinates] and [categories] of a track. *)
Definition historical_points (t : track) : result (list json * list Z) :=
  foldM (historical_point t) ([], []) (seq 0 (length (lat t))).

(** Lines 110-124: the feature of a track that is kept. *)
Definition historical_feature (basin : string) (year_min : Z) (t : track)
    (coordinates : list json) (categories : list Z) : result json :=
  name_v ← match name t with
           | Some n => mret n
           | None => s ← track_sid t; mret ("Storm_" +:+ s)
           end;
  sid_v ← track_sid t;
  max_wind ← match max_sustained_wind t with
             | Some winds => w ← np_nanmax py winds; mret (JFloat w)
             | None => mret (JInt 0)
             end;
  mret (JObj [("type", JStr "Feature");
              ("properties",
               JObj [("name", JStr name_v);
                     ("sid", JStr sid_v);
                     ("season", JInt (default year_min (season t)));
                     ("basin", JStr basin);
                     ("category", JInt (max_category categories));
                     ("max_wind", max_wind)]);
              ("geometry", line_string coordinates)]).

(** One turn of the loop of lines 77-124. *)
Definition historical_track (basin : string) (year_min : Z)
    (features : list json) (t : track) : result (list json) :=
  if (length (lat t) <? 3)%nat then mret features
  else
    '(coordinates, categories) ← historical_points t;
    if (3 <=? length coordinates)%nat then
      f ← historical_feature basin year_min t coordinates categories;
      mret (features ++ [f])
    else mret features.

(** Lines 126-134: the collection stored in the cache. *)
Definition historical_collection (basin : string) (year_min year_max : Z)
    (features : list json) : json :=
  JObj [("type", JStr "FeatureCollection");
        ("features", JArr features);
        ("properties",
         JObj [("basin", JStr basin);
               ("year_range", JArr [JInt year_min; JInt year_max]);
               ("count", JInt (Z.of_nat (length features)))])].

Definition get_historical_tracks_body (lib : climada) (req : request) : M response :=
  '(basin, year_min, year_max) ← lift (historical_params req);
  let key := cache_key basin year_min year_max in
  missing ← cache_missing key;
  _ ← (if missing : bool then
         tc_tracks ← call (CallIbtracs (year_min, year_max) (JStr basin))
                          (from_ibtracs_netcdf lib (year_min, year_max) (JStr basin));
         features ← lift (foldM (historical_track basin year_min) [] tc_tracks);
         cache_store key (historical_collection basin year_min year_max features)
       else mret tt);
  v ← cache_load key;
  mret (ok v).

Definition get_historical_tracks (lib : climada) (req : request)
  : state -> response * state :=
  try_except (get_historical_tracks_body lib req).

(** *** generate_synthetic_tracks (lines 143-228) *)

(** One turn of the loop of lines 198-200. *)
Definition synthetic_point (t : track) (coordinates : list json) (j : nat)
  : result (list json) :=
  lat_j ← getitem (lat t) j;
  if negb (Float64.isnan lat_j) then
    lon_j ← getitem (lon t) j;
    if negb (Float64.isnan lon_j) then
      mret (coordinates ++ [coordinate lon_j lat_j])
    else mret coordinates
  else mret coordinates.

Definition synthetic_points (t : track) : result (list json) :=
  foldM (synthetic_point t) [] (seq 0 (length (lat t))).

(** Lines 203-214 *)
Definition synthetic_feature (scenario : json) (i : nat) (coordinates : list json)
  : json :=
  JObj [("type", JStr "Feature");
        ("properties",
         JObj [("name", JStr ("Synthetic_" +:+ str_of_Z (Z.of_nat i)));
               ("type", JStr "synthetic");
               ("scenario", scenario)]);
        ("geometry", line_string coordinates)].

(** One turn of the loop of lines 193-214. *)
Definition synthetic_track (scenario : json) (features : list json)
    (it : nat * track) : result (list json) :=
  let '(i, t) := it in
  if (length (lat t) <? 3)%nat then mret features
  else
    coordinates ← synthetic_points t;
    if (3 <=? length coordinates)%nat then
      mret (features ++ [synthetic_feature scenario i coordinates])
    else mret features.

(** Lines 216-224 *)
Definition synthetic_collection (scenario : json) (features : list json)
    (total : nat) : json :=
  JObj [("type", JStr "FeatureCollection");
        ("features", JArr features);
        ("properties",
         JObj [("scenario", scenario);
               ("total_tracks", JInt (Z.of_nat total));
               ("displayed_tracks", JInt (Z.of_nat (length features)))])].

Definition generate_synthetic_tracks_body (lib : climada) (req : request)
  : M response :=
  data ← lift (json_body req);
  scenario ← lift (dict_get data "scenario" (JStr "historical"));
  n_years ← lift (dict_get data "years" (JInt 100));
  basin ← lift (dict_get data "basin" (JStr "NA"));
  tc_tracks ← call (CallIbtracs (1980, 2020) basin)
                   (from_ibtracs_netcdf lib (1980, 2020) basin);
  nb_synth_tracks ← lift (int_truediv py n_years 40);
  tc_tracks_synth ← call (CallPerturbed nb_synth_tracks)
                         (calc_perturbed_trajectories lib tc_tracks nb_synth_tracks);
  let _logged := climate_factors scenario in
  let sample_size := Nat.min 50 (length tc_tracks_synth) in
  features ← lift (foldM (synthetic_track scenario) []
                     (enumerate_from 0 (take sample_size tc_tracks_synth)));
  mret (ok (synthetic_collection scenario features (length tc_tracks_synth))).

Definition generate_synthetic_tracks (lib : climada) (req : request)
  : state -> response * state :=
  try_except (generate_synthetic_tracks_body lib req).

(** *** calculate_wind_field (lines 231-258) *)

Definition calculate_wind_field_body (req : request) : M response :=
  data ← lift (json_body req);
  track_id ← lift (dict_get data "track_id" JNull);
  resolution ← lift (dict_get data "resolution" (JInt 10));
  mret (ok (JObj [("status", JStr "success");
                  ("message", JStr "Wind field calculation requires significant computation");
                  ("track_id", track_id);
                  ("resolution", resolution)])).

Definition calculate_wind_field (req : request) : state -> response * state :=
  try_except (calculate_wind_field_body req).

(** *** calculate_impact (lines 261-300) *)

Definition calculate_impact_body (lib : climada) (req : request) : M response :=
  data ← lift (json_body req);
  country ← lift (dict_get data "country" (JStr "USA"));
  scenario ← lift (dict_get data "scenario" (JStr "historical"));
  exp ← call (CallLitPop country) (litpop_from_countries lib country);
  _ ← call CallImpactFuncSet (impact_func_set lib);
  mret (ok (JObj [("country", country);
                  ("scenario", scenario);
                  ("exposure",
                   JObj [("total_value", JFloat (total_value exp));
                         ("n_assets", JInt (n_assets exp));
                         ("currency", JStr "USD")]);
                  ("message", JStr "Full impact calculation requires hazard data")])).

Definition calculate_impact (lib : climada) (req : request)
  : state -> response * state :=
  try_except (calculate_impact_body lib req).

(** *** get_return_periods (lines 303-334) *)

(** [lat, lon = map(float, parts)]: the map is lazy, so each part is
    parsed when the unpacking asks for it, a third one included. *)
Definition unpack_lat_lon (parts : list string) : result (spec_float * spec_float) :=
  match parts with
  | [] => raise (Exn "ValueError" "not enough values to unpack (expected 2, got 0)")
  | a :: rest =>
      lat_v ← py_float py a;
      match rest with
      | [] => raise (Exn "ValueError" "not enough values to unpack (expected 2, got 1)")
      | b :: rest' =>
          lon_v ← py_float py b;
          match rest' with
          | [] => mret (lat_v, lon_v)
          | c :: _ =>
              _ ← py_float py c;
              raise (Exn "ValueError" "too many values to unpack (expected 2)")
          end
      end
  end.

Definition get_return_periods_body (req : request) : M response :=
  let location := args_get req "location" "25.7617,-80.1918" in
  '(lat_v, lon_v) ← lift (unpack_lat_lon (split_on "," location));
  let metric := args_get req "metric" "wind_speed" in
  mret (ok (JObj [("location", JObj [("lat", JFloat lat_v); ("lon", JFloat lon_v)]);
                  ("metric", JStr metric);
                  ("return_periods", return_period_table);
                  ("unit", JStr (if String.eqb metric "wind_speed" then "mph" else "ft"))])).

Definition get_return_periods (req : request) : state -> response * state :=
  try_except (get_return_periods_body req).

(** *** The application: a route to its handler *)

Definition handler_body (ep : endpoint) (lib : climada) (req : request) : M response :=
  match ep with
  | Version => get_version_body lib
  | HistoricalTracks => get_historical_tracks_body lib req
  | SyntheticTracks => generate_synthetic_tracks_body lib req
  | WindField => calculate_wind_field_body req
  | Impact => calculate_impact_body lib req
  | ReturnPeriods => get_return_periods_body req
  end.

Definition serve (ep : endpoint) (lib : climada) (req : request)
  : state -> response * state :=
  match ep with
  | Version => get_version lib
  | HistoricalTracks => get_historical_tracks lib req
  | SyntheticTracks => generate_synthetic_tracks lib req
  | WindField => calculate_wind_field req
  | Impact => calculate_impact lib req
  | ReturnPeriods => get_return_periods req
  end.

(** The server handling a sequence of requests, each against the library
    as it behaves at that time. *)
Fixpoint run (reqs : list (endpoint * climada * request)) (s : state) : state :=
  match reqs with
  | [] => s
  | (ep, lib, req) :: rest => run rest (serve ep lib req s).2
  end.

End Handlers.

(** ** Reading a response *)

(** [j[key]] for a dict [j]. *)
Definition json_field (key : string) (j : json) : option json :=
  match j with
  | JObj fields => assoc key fields
  | _ => None
  end.

(** The 'features' list of a response body; empty when there is none. *)
Definition features_of (b : json) : list json :=
  match json_field "features" b with
  | Some (JArr fs) => fs
  | _ => []
  end.

(** [b['properties'][key]] *)
Definition property_of (key : string) (b : json) : option json :=
  j ← json_field "properties" b; json_field key j.

(** ** The track points that have a position

    The [[lon, lat]] pairs of the points of a track whose latitude and
    longitude are both numbers, in track order. *)
Definition has_position (p : spec_float * spec_float) : bool :=
  negb (Float64.isnan p.1) && negb (Float64.isnan p.2).

Definition positions (lats lons : list spec_float) : list json :=
  map (fun p => coordinate p.2 p.1) (List.filter has_position (zip lats lons)).

Definition valid_coordinates (t : track) : list json := positions (lat t) (lon t).

(** A track is kept when it has at least three such points. *)
Definition kept (t : track) : bool := (3 <=? length (valid_coordinates t))%nat.

(** ** Sample inputs

    Concrete builtins, library and requests on which the properties below
    are exercised.  The sample builtins agree with Python's on the inputs
    they are used at: [int] and [float] of a plain run of decimal digits
    with an optional minus sign, [int(n / d)] of a small int, and
    [np.nanmax] of a non-empty array.  They are not Python's builtins
    elsewhere (a decimal point, a sign '+', surrounding blanks, '-0', a
    float or bool dividend), and no property is stated about them: every
    theorem is about an arbitrary [python]. *)
Module Sample.

Definition int_of_digits (s : string) : result Z :=
  match NilZero.int_of_string s with
  | Some d => mret (Z.of_int d)
  | None => raise (Exn "ValueError"
                     ("invalid literal for int() with base 10: '" +:+ s +:+ "'"))
  end.

Definition float_of_digits (s : string) : result spec_float :=
  match NilZero.int_of_string s with
  | Some d => mret (Float64.of_Z (Z.of_int d))
  | None => raise (Exn "ValueError"
                     ("could not convert string to float: '" +:+ s +:+ "'"))
  end.

Definition int_quot (n : json) (d : Z) : result Z :=
  match n with
  | JInt k => mret (Z.quot k d)
  | _ => raise (Exn "TypeError"
                  ("unsupported operand type(s) for /: '" +:+ type_name n +:+ "' and 'int'"))
  end.

Definition nanmax (ws : list spec_float) : result spec_float :=
  match ws with
  | [] => raise (Exn "ValueError"
                   "zero-size array to reduction operation fmax which has no identity")
  | w :: rest =>
      mret (fold_left (fun acc x =>
                         if Float64.isnan acc then x
                         else if Float64.isnan x then acc
                         else if SFleb acc x then x else acc) rest w)
  end.

Definition py : python := Python int_of_digits float_of_digits int_quot nanmax.

(** Three points with winds of 70, 100 and 140 knots. *)
Definition storm : track :=
  Track [Float64.of_Z 25; Float64.of_Z 26; Float64.of_Z 27]
        [Float64.of_Z (-80); Float64.of_Z (-79); Float64.of_Z (-78)]
        (Some [Float64.of_Z 70; Float64.of_Z 100; Float64.of_Z 140])
        (Some "ANDREW") (Some "1992230N11325") (Some 1992).

(** Two points only. *)
Definition short_storm : track :=
  Track [Float64.of_Z 10; Float64.of_Z 11]
        [Float64.of_Z (-60); Float64.of_Z (-61)]
        (Some [Float64.of_Z 30; Float64.of_Z 35])
        (Some "BRIEF") (Some "2001001N10300") (Some 2001).

(** A library whose archive holds [tracks] and whose perturbation returns
    [synth] whatever it is given. *)
Definition library (tracks synth : list track) : climada :=
  Climada (inr "6.0.1") (fun _ _ => inr tracks) (fun _ _ => inr synth)
          (fun _ => inr (Exposure (Float64.of_Z 1000) 4)) (inr tt).

(** A library in which every entry point raises. *)
Definition broken : exn := Exn "RuntimeError" "library raised something".

Definition failing_library : climada :=
  Climada (inl broken) (fun _ _ => inl broken) (fun _ _ => inl broken)
          (fun _ => inl broken) (inl broken).

Definition no_body : result json :=
  inl (Exn "UnsupportedMediaType"
         ("415 Unsupported Media Type: Did not attempt to load JSON data because "
          +:+ "the request Content-Type was not 'application/json'.")).

(** A track whose longitude array is shorter than its latitude array. *)
Definition ragged_storm : track :=
  Track [Float64.of_Z 25; Float64.of_Z 26; Float64.of_Z 27] [Float64.of_Z (-80)]
        None (Some "RAGGED") (Some "2005001N25280") None.

Definition get (query : list (string * string)) : request := Request query no_body.
Definition post (data : json) : request := Request [] (inr data).

End Sample.

(** Whatever the location and the metric of the request, the return-periods
    response carries the placeholder table. *)
Definition always_return_periods (py : python) : Prop :=
  forall (req : request) (s : state),
    json_field "return_periods" (body (get_return_periods py req s).1)
    = Some return_period_table.

(** ** Characters of a key *)

(** [c in s] *)
Fixpoint mentions (c : ascii) (s : string) : bool :=
  match s with
  | EmptyString => false
  | String c' s' => Ascii.eqb c' c || mentions c s'
  end.

(** ** Runs of the server *)

(** The state when the module is loaded: [cache = {}], no call made. *)
Definition initial_state : state := State ∅ [].

(** The synthetic tracks a synthetic-tracks request obtains from the
    library (lines 151-168): [tc_tracks_synth.data]. *)
Definition synthetic_library_tracks (py : python) (lib : climada) (req : request)
  : result (list track) :=
  data ← json_body req;
  n_years ← dict_get data "years" (JInt 100);
  basin ← dict_get data "basin" (JStr "NA");
  tc_tracks ← from_ibtracs_netcdf lib (1980, 2020) basin;
  nb_synth_tracks ← int_truediv py n_years 40;
  calc_perturbed_trajectories lib tc_tracks nb_synth_tracks.

(** The scenario a synthetic-tracks request asks for (line 152). *)
Definition requested_scenario (req : request) : result json :=
  data ← json_body req; dict_get data "scenario" (JStr "historical").

(** Two requests that are identical except for the value of 'scenario' in
    their JSON body. *)
Definition differ_only_in_scenario (req1 req2 : request) : Prop :=
  args req1 = args req2 /\
  match json_body req1, json_body req2 with
  | inr (JObj fields1), inr (JObj fields2) =>
      forall k : string, k <> "scenario" -> assoc k fields1 = assoc k fields2
  | body1, body2 => body1 = body2
  end.

(** The 'geometry' members of the features of a response body. *)
Definition geometries_of (b : json) : list (option json) :=
  map (json_field "geometry") (features_of b).

(** The features the synthetic-tracks handler shows for the tracks [synth]:
    among the first 50, those that are kept, each named after its index. *)
Definition shown_features (scenario : json) (synth : list track) : list json :=
  map (fun it : nat * track => synthetic_feature scenario it.1 (valid_coordinates it.2))
      (List.filter (fun it : nat * track => kept it.2)
         (enumerate_from 0 (take (Nat.min 50 (length synth)) synth))).

(** The geometries that the translation gives for the tracks [ts]: one
    LineString per kept track, in the order of [ts], holding the track's
    valid coordinates. *)
Definition track_geometries (ts : list track) : list (option json) :=
  map (fun t => Some (line_string (valid_coordinates t))) (List.filter kept ts).

(** A historical FeatureCollection translated from the tracks [ts], with its
    'count' equal to its number of features. *)
Definition collection_of (ts : list track) (v : json) : Prop :=
  geometries_of v = track_geometries ts /\
  property_of "count" v = Some (JInt (Z.of_nat (length (features_of v)))).

(** A historical feature made from the track [t]. *)
Definition feature_of_track (py : python) (basin : string) (year_min : Z)
    (f : json) (t : track) : Prop :=
  exists categories,
    historical_feature py basin year_min t (valid_coordinates t) categories = inr f.

(** ** Further readings of the state, of a track and of a string *)

(** Every cache entry is a historical collection stored under the key of
    its own basin and years. *)
Definition cache_keyed (s : state) : Prop :=
  forall (k : string) (v : json),
    cache s !! k = Some v ->
    exists b y1 y2 fs, k = cache_key b y1 y2 /\ v = historical_collection b y1 y2 fs.

(** The library calls a request adds to those made before it. *)
Definition new_calls (s s' : state) (added : list lib_call) : Prop :=
  calls s' = calls s ++ added.

(** Every point of the track that has a latitude has an entry in the
    longitude array. *)
Definition longitudes_cover (t : track) : Prop :=
  forall (i : nat) (a : spec_float),
    lat t !! i = Some a -> Float64.isnan a = false -> (i < length (lon t))%nat.

(** A track whose points the synthetic-tracks loop can read: it is skipped
    for having fewer than three latitudes, or its longitudes cover them. *)
Definition scannable (t : track) : Prop :=
  (length (lat t) < 3)%nat \/ longitudes_cover t.

(** Whether point [i] of a track has a position: a latitude and a longitude,
    neither NaN. *)
Definition located (t : track) (i : nat) : bool :=
  match lat t !! i, lon t !! i with
  | Some a, Some o => negb (Float64.isnan a) && negb (Float64.isnan o)
  | _, _ => false
  end.

(** [track.max_sustained_wind[i]], when the track has the attribute and the
    array reaches [i]. *)
Definition wind_at (t : track) (i : nat) : option spec_float :=
  winds ← max_sustained_wind t; winds !! i.

(** The Saffir-Simpson categories of the located points of a track, in
    track order. *)
Definition point_categories (t : track) : list Z :=
  map (fun i => point_category (wind_at t i))
      (List.filter (located t) (seq 0 (length (lat t)))).

(** [sep.join(parts)] for a one-character separator. *)
Fixpoint join (sep : ascii) (parts : list string) : string :=
  match parts with
  | [] => EmptyString
  | [p] => p
  | p :: rest => p +:+ String sep (join sep rest)
  end.

(** The wind array of the track, when it has one, reaches every located
    point. *)
Definition winds_cover (t : track) : Prop :=
  forall (winds : list spec_float) (i : nat),
    max_sustained_wind t = Some winds -> located t i = true -> (i < length winds)%nat.

(** What line 110-124 need of a kept track: an [sid], and a wind array, when
    there is one, that [np.nanmax] reduces. *)
Definition describable (py : python) (t : track) : Prop :=
  is_Some (sid t) /\
  forall winds : list spec_float,
    max_sustained_wind t = Some winds -> exists w, np_nanmax py winds = inr w.

(** A track that the historical-tracks loop can translate: it is skipped for
    having fewer than three latitudes, or its arrays cover its points and,
    if it is kept, it can be described. *)
Definition readable (py : python) (t : track) : Prop :=
  (length (lat t) < 3)%nat \/
  (longitudes_cover t /\ winds_cover t /\ (kept t = true -> describable py t)).

(** ** Reading a line

    How a client reads the line of a feature it is sent, whatever built
    the feature. *)

(** A position: an array of exactly two floats. *)
Definition read_position (c : json) : option (spec_float * spec_float) :=
  match c with
  | JArr [JFloat x; JFloat y] => Some (x, y)
  | _ => None
  end.

(** The positions of a geometry whose 'type' is 'LineString'. *)
Definition read_line_string (g : json) : option (list (spec_float * spec_float)) :=
  match json_field "type" g, json_field "coordinates" g with
  | Some ty, Some (JArr cs) =>
      if json_is_str ty "LineString" then mapM read_position cs else None
  | _, _ => None
  end.

(** The line of a feature: the positions of its 'geometry'. *)
Definition feature_line (f : json) : option (list (spec_float * spec_float)) :=
  g ← json_field "geometry" f; read_line_string g.

(** The line of a track: the (longitude, latitude) of its points whose
    latitude and longitude are both numbers, in track order. *)
Definition track_line (t : track) : list (spec_float * spec_float) :=
  map (fun p : spec_float * spec_float => (p.2, p.1))
      (List.filter has_position (zip (lat t) (lon t))).

(** A track is drawn when its line has at least three points. *)
Definition drawn (t : track) : bool := (3 <=? length (track_line t))%nat.

(** A line of at least three positions, no number of which is NaN. *)
Definition proper_line (l : option (list (spec_float * spec_float))) : Prop :=
  exists pts,
    l = Some pts /\
    (3 <= length pts)%nat /\
    Forall (fun p : spec_float * spec_float =>
              Float64.isnan p.1 = false /\ Float64.isnan p.2 = false) pts.

(** The body of an error response: the single member 'error', a string. *)
Definition error_payload (b : json) : Prop :=
  exists msg : string, b = JObj [("error", JStr msg)].

(** ** Where a cache entry comes from *)

(** Every cache entry was computed by one of the historical-tracks requests
    [served]: it is stored under the key of that request's parameters and is
    the collection of the features translated from the tracks that the
    library returned to that request. *)
Definition cache_computed (py : python) (served : list (endpoint * climada * request))
    (s : state) : Prop :=
  forall (k : string) (v : json),
    cache s !! k = Some v ->
    exists lib req b y1 y2 ts fs,
      In (HistoricalTracks, lib, req) served /\
      historical_params py req = inr (b, y1, y2) /\
      k = cache_key b y1 y2 /\
      from_ibtracs_netcdf lib (y1, y2) (JStr b) = inr ts /\
      foldM (historical_track py b y1) [] ts = inr fs /\
      v = historical_collection b y1 y2 fs.

(* ===================================================================== *)
(** * Properties *)
(* ===================================================================== *)
(** ** Order facts on binary64 *)

Section FloatOrder.

Lemma SFleb_trans (a b c : spec_float) :
  SFleb a b = true -> SFleb b c = true -> SFleb a c = true.
Proof.
  unfold SFleb, SFcompare.
  destruct a as [[]|[]| |[] m1 e1], b as [[]|[]| |[] m2 e2],
           c as [[]|[]| |[] m3 e3]; simpl; try done;
    change (Pos.compare_cont Eq) with Pos.compare;
    destruct (Z.compare_spec e1 e2), (Z.compare_spec e2 e3),
             (Z.compare_spec e1 e3); try done; try lia;
    destruct (Pos.compare_spec m1 m2), (Pos.compare_spec m2 m3),
             (Pos.compare_spec m1 m3); simpl; try done; lia.
Qed.

Lemma SFltb_not_leb (a b : spec_float) :
  Float64.isnan a = false -> Float64.isnan b = false ->
  SFltb a b = negb (SFleb b a).
Proof.
  unfold SFltb, SFleb, SFcompare.
  destruct a as [[]|[]| |[] m1 e1], b as [[]|[]| |[] m2 e2];
    simpl; try done; intros _ _;
    change (Pos.compare_cont Eq) with Pos.compare;
    rewrite (Z.compare_antisym e1 e2), (Pos.compare_antisym m1 m2);
    destruct (e1 ?= e2); simpl; try done;
    destruct (m1 ?= m2)%positive; done.
Qed.

Lemma digits2_pos_bounds (m : positive) :
  2 ^ (Z.pos (digits2_pos m) - 1) <= Z.pos m < 2 ^ Z.pos (digits2_pos m).
Proof.
  induction m as [p IH|p IH|]; simpl digits2_pos.
  - rewrite Pos2Z.inj_succ.
    replace (Z.succ (Z.pos (digits2_pos p)) - 1)
      with (Z.succ (Z.pos (digits2_pos p) - 1)) by lia.
    rewrite !Z.pow_succ_r by lia. lia.
  - rewrite Pos2Z.inj_succ.
    replace (Z.succ (Z.pos (digits2_pos p)) - 1)
      with (Z.succ (Z.pos (digits2_pos p) - 1)) by lia.
    rewrite !Z.pow_succ_r by lia. lia.
  - simpl. lia.
Qed.

Lemma bounded_mantissa (m : positive) (e : Z) :
  bounded 53 1024 m e = true ->
  Z.pos m < 2 ^ 53 /\ (-1074 < e -> 2 ^ 52 <= Z.pos m).
Proof.
  unfold bounded, canonical_mantissa, fexp, emin.
  intros [Hc _]%andb_prop. apply Z.eqb_eq in Hc.
  pose proof (digits2_pos_bounds m) as [Hlo Hhi].
  set (d := Z.pos (digits2_pos m)) in *.
  assert (Hd : d <= 53) by lia.
  split.
  - eapply Z.lt_le_trans; [exact Hhi |]. apply Z.pow_le_mono_r; lia.
  - intros He. assert (d = 53) as Hd53 by lia. rewrite Hd53 in Hlo. exact Hlo.
Qed.

Lemma pow2_ge_2 (n : Z) : 1 <= n -> 2 <= 2 ^ n.
Proof. intros H. change 2 with (2 ^ 1) at 1. apply Z.pow_le_mono_r; lia. Qed.

Lemma leb_finite_value (M : positive) (E k : Z) (m : positive) (e : Z) :
  Z.pos M = k * 2 ^ (- E) -> E <= 0 -> -1074 < E ->
  2 ^ 52 <= Z.pos M < 2 ^ 53 ->
  bounded 53 1024 m e = true ->
  SFleb (S754_finite false M E) (S754_finite false m e)
  = Float64.value_ge (S754_finite false m e) k.
Proof.
  intros HM HE HE' [HMlo HMhi] Hb.
  destruct (bounded_mantissa m e Hb) as [Hhi Hlo].
  unfold SFleb, SFcompare, Float64.value_ge.
  change (Pos.compare_cont Eq M m) with (Pos.compare M m).
  assert (HP : 0 < 2 ^ (- E)) by (apply Z.pow_pos_nonneg; lia).
  assert (Hk : 0 < k) by nia.
  destruct (Z.compare_spec E e) as [Heq | Hlt | Hgt].
  - subst e. rewrite Pos2Z.inj_compare.
    assert (Hiff : Z.pos M <= Z.pos m <->
                   if 0 <=? E then k <= Z.pos m * 2 ^ E else k * 2 ^ (- E) <= Z.pos m).
    { destruct (Z.leb_spec 0 E); [| lia].
      assert (E = 0) as -> by lia. change (2 ^ (- 0)) with 1 in HM.
      change (2 ^ 0) with 1. lia. }
    destruct (0 <=? E);
      destruct (Z.compare_spec (Z.pos M) (Z.pos m));
      match goal with |- _ = (?a <=? ?b) => destruct (Z.leb_spec a b) end;
      try reflexivity; lia.
  - specialize (Hlo ltac:(lia)). symmetry.
    destruct (Z.leb_spec 0 e); apply Z.leb_le.
    + assert (2 <= 2 ^ (e - E)) by (apply pow2_ge_2; lia).
      assert (Hsplit : 2 ^ (e - E) = 2 ^ e * 2 ^ (- E))
        by (rewrite <- Z.pow_add_r by lia; f_equal; lia).
      assert (0 < 2 ^ e) by (apply Z.pow_pos_nonneg; lia).
      nia.
    + assert (Hsplit : 2 ^ (- E) = 2 ^ (- e) * 2 ^ (e - E))
        by (rewrite <- Z.pow_add_r by lia; f_equal; lia).
      assert (2 <= 2 ^ (e - E)) by (apply pow2_ge_2; lia).
      assert (0 < 2 ^ (- e)) by (apply Z.pow_pos_nonneg; lia).
      rewrite Hsplit in HM. nia.
  - destruct (Z.leb_spec 0 e); [lia |].
    symmetry. apply Z.leb_gt.
    assert (Hsplit : 2 ^ (- e) = 2 ^ (- E) * 2 ^ (E - e))
      by (rewrite <- Z.pow_add_r by lia; f_equal; lia).
    assert (2 <= 2 ^ (E - e)) by (apply pow2_ge_2; lia).
    rewrite Hsplit. nia.
Qed.

Lemma geb_finite_value (M : positive) (E k : Z) (w : spec_float) :
  Z.pos M = k * 2 ^ (- E) -> E <= 0 -> -1074 < E ->
  2 ^ 52 <= Z.pos M < 2 ^ 53 ->
  Float64.valid w = true ->
  Float64.geb w (S754_finite false M E) = Float64.value_ge w k.
Proof.
  intros HM HE HE' HMb Hv.
  assert (HP : 0 < 2 ^ (- E)) by (apply Z.pow_pos_nonneg; lia).
  assert (Hk : 0 < k) by nia.
  destruct w as [s|[]| |[] m e]; try reflexivity.
  - simpl. symmetry. apply Z.leb_gt. lia.
  - simpl. symmetry.
    destruct (Z.leb_spec 0 e); apply Z.leb_gt.
    + assert (0 < 2 ^ e) by (apply Z.pow_pos_nonneg; lia). nia.
    + assert (0 < 2 ^ (- e)) by (apply Z.pow_pos_nonneg; lia). nia.
  - by apply leb_finite_value.
Qed.

(** Against the thresholds of the source, the binary64 comparison of a
    well-formed value is the comparison of the numbers. *)
Lemma geb_threshold_value (k : Z) (w : spec_float) :
  In k [137; 113; 96; 83; 64] ->
  Float64.valid w = true ->
  Float64.geb w (Float64.of_Z k) = Float64.value_ge w k.
Proof.
  intros Hk Hv. simpl in Hk.
  destruct Hk as [<- | [<- | [<- | [<- | [<- | []]]]]];
    (eapply geb_finite_value;
       [reflexivity | by vm_compute | by vm_compute | split; by vm_compute | exact Hv]).
Qed.

End FloatOrder.

(** ** The Saffir-Simpson lookup *)

(** The thresholds are the binary64 values of the integers of the source. *)
Example thresholds_binary64 :
  Float64.of_Z 137 = S754_finite false (137 * 2 ^ 45) (-45) /\
  Float64.of_Z 113 = S754_finite false (113 * 2 ^ 46) (-46) /\
  Float64.of_Z 96 = S754_finite false (96 * 2 ^ 46) (-46) /\
  Float64.of_Z 83 = S754_finite false (83 * 2 ^ 46) (-46) /\
  Float64.of_Z 64 = S754_finite false (64 * 2 ^ 46) (-46).
Proof. repeat split; reflexivity. Qed.

Lemma geb_threshold_mono (a b : Z) (w : spec_float) :
  SFleb (Float64.of_Z a) (Float64.of_Z b) = true ->
  Float64.geb w (Float64.of_Z b) = true ->
  Float64.geb w (Float64.of_Z a) = true.
Proof. unfold Float64.geb. intros Hab Hb. exact (SFleb_trans _ _ _ Hab Hb). Qed.

Lemma ltb_threshold (k : Z) (w : spec_float) :
  Float64.isnan w = false ->
  Float64.isnan (Float64.of_Z k) = false ->
  Float64.ltb w (Float64.of_Z k) = true ->
  Float64.geb w (Float64.of_Z k) = false.
Proof.
  unfold Float64.ltb, Float64.geb. intros Hw Hk H.
  rewrite (SFltb_not_leb _ _ Hw Hk) in H. by destruct (SFleb _ w).
Qed.

Ltac below k :=
  match goal with
  | H : Float64.ltb ?w (Float64.of_Z k) = true, Hn : Float64.isnan ?w = false |- _ =>
      let G := fresh "G" in
      assert (G : Float64.geb w (Float64.of_Z k) = false)
        by (apply ltb_threshold; [exact Hn | reflexivity | exact H])
  end.

Ltac not_above k j :=
  match goal with
  | G : Float64.geb ?w (Float64.of_Z k) = false |- _ =>
      let G' := fresh "G" in
      assert (G' : Float64.geb w (Float64.of_Z j) = false)
        by (destruct (Float64.geb w (Float64.of_Z j)) eqn:E; [| reflexivity];
            rewrite (geb_threshold_mono k j w eq_refl E) in G; discriminate G)
  end.

(** For a well-formed binary64 wind value the lookup is the table of the
    numbers: 137, 113, 96, 83 and 64 knots. *)
Lemma saffir_simpson_by_value (w : spec_float) :
  Float64.valid w = true ->
  saffir_simpson w =
    if Float64.value_ge w 137 then 5
    else if Float64.value_ge w 113 then 4
    else if Float64.value_ge w 96 then 3
    else if Float64.value_ge w 83 then 2
    else if Float64.value_ge w 64 then 1
    else 0.
Proof.
  intros Hv. unfold saffir_simpson.
  rewrite !geb_threshold_value by (simpl; tauto || exact Hv). reflexivity.
Qed.

(** C1. For a wind value [w] that is not NaN the category of a point is 5
    when w >= 137, 4 when 113 <= w < 137, 3 when 96 <= w < 113, 2 when
    83 <= w < 96, 1 when 64 <= w < 83 and 0 when w < 64, the comparisons
    being those of binary64; for a well-formed [w] they are the comparisons
    of the number [w] denotes with 137, 113, 96, 83 and 64.  A NaN value and
    a track without [max_sustained_wind] give 0. *)
Theorem saffir_simpson_table (w : spec_float) :
  Float64.isnan w = false ->
  (Float64.geb w (Float64.of_Z 137) = true -> point_category (Some w) = 5) /\
  (Float64.leb (Float64.of_Z 113) w = true -> Float64.ltb w (Float64.of_Z 137) = true ->
   point_category (Some w) = 4) /\
  (Float64.leb (Float64.of_Z 96) w = true -> Float64.ltb w (Float64.of_Z 113) = true ->
   point_category (Some w) = 3) /\
  (Float64.leb (Float64.of_Z 83) w = true -> Float64.ltb w (Float64.of_Z 96) = true ->
   point_category (Some w) = 2) /\
  (Float64.leb (Float64.of_Z 64) w = true -> Float64.ltb w (Float64.of_Z 83) = true ->
   point_category (Some w) = 1) /\
  (Float64.ltb w (Float64.of_Z 64) = true -> point_category (Some w) = 0) /\
  (Float64.valid w = true ->
   point_category (Some w) =
     if Float64.value_ge w 137 then 5
     else if Float64.value_ge w 113 then 4
     else if Float64.value_ge w 96 then 3
     else if Float64.value_ge w 83 then 2
     else if Float64.value_ge w 64 then 1
     else 0) /\
  point_category (Some S754_nan) = 0 /\
  point_category None = 0.
Proof.
  intros Hn.
  assert (Hv : Float64.valid w = true ->
               point_category (Some w) =
                 if Float64.value_ge w 137 then 5
                 else if Float64.value_ge w 113 then 4
                 else if Float64.value_ge w 96 then 3
                 else if Float64.value_ge w 83 then 2
                 else if Float64.value_ge w 64 then 1
                 else 0).
  { intros Hv. simpl. rewrite Hn. simpl. by apply saffir_simpson_by_value. }
  revert Hv.
  unfold point_category, saffir_simpson. rewrite Hn. simpl negb. cbv iota.
  change (Float64.leb ?a w) with (Float64.geb w a).
  intros Hv. repeat split; [.. | exact Hv].
  - by intros ->.
  - intros H1 H2. below 137. by rewrite G, H1.
  - intros H1 H2. below 113. not_above 113 137. by rewrite G0, G, H1.
  - intros H1 H2. below 96. not_above 96 113. not_above 113 137.
    by rewrite G1, G0, G, H1.
  - intros H1 H2. below 83. not_above 83 96. not_above 96 113. not_above 113 137.
    by rewrite G2, G1, G0, G, H1.
  - intros H2. below 64. not_above 64 83. not_above 83 96. not_above 96 113.
    not_above 113 137. by rewrite G3, G2, G1, G0, G.
Qed.

Lemma saffir_simpson_table_witness :
  Float64.isnan (Float64.of_Z 100) = false /\
  point_category (Some (Float64.of_Z 100)) = 3.
Proof.
  split; [reflexivity |].
  apply (saffir_simpson_table (Float64.of_Z 100) eq_refl); reflexivity.
Defined.

Lemma geb_le_mono (k w1 w2 : spec_float) :
  Float64.leb w1 w2 = true -> Float64.geb w1 k = true -> Float64.geb w2 k = true.
Proof. unfold Float64.leb, Float64.geb. intros H12 H1. exact (SFleb_trans _ _ _ H1 H12). Qed.

Lemma saffir_simpson_range (w : spec_float) : 0 <= saffir_simpson w <= 5.
Proof. unfold saffir_simpson. repeat case_match; lia. Qed.

Lemma saffir_simpson_mono (w1 w2 : spec_float) :
  Float64.leb w1 w2 = true -> saffir_simpson w1 <= saffir_simpson w2.
Proof.
  intros H. pose proof (fun k => geb_le_mono k w1 w2 H) as T.
  unfold saffir_simpson.
  destruct (Float64.geb w1 (Float64.of_Z 137)) eqn:E5; [rewrite (T _ E5); lia |].
  destruct (Float64.geb w1 (Float64.of_Z 113)) eqn:E4;
    [rewrite (T _ E4); case_match; lia |].
  destruct (Float64.geb w1 (Float64.of_Z 96)) eqn:E3;
    [rewrite (T _ E3); repeat case_match; lia |].
  destruct (Float64.geb w1 (Float64.of_Z 83)) eqn:E2;
    [rewrite (T _ E2); repeat case_match; lia |].
  destruct (Float64.geb w1 (Float64.of_Z 64)) eqn:E1;
    [rewrite (T _ E1); repeat case_match; lia |].
  repeat case_match; lia.
Qed.

(** C2. The category of every wind input, NaN and a missing attribute
    included, lies between 0 and 5; and for wind values w1 <= w2, neither
    NaN, the category of w1 is at most the category of w2. *)
Theorem saffir_simpson_range_monotone (wind : option spec_float) (w1 w2 : spec_float) :
  0 <= point_category wind <= 5 /\
  (Float64.isnan w1 = false -> Float64.isnan w2 = false ->
   Float64.leb w1 w2 = true ->
   point_category (Some w1) <= point_category (Some w2)).
Proof.
  split.
  - destruct wind as [w|]; simpl; [| lia].
    destruct (Float64.isnan w); simpl; [lia | apply saffir_simpson_range].
  - intros H1 H2 H. simpl. rewrite H1, H2. simpl. by apply saffir_simpson_mono.
Qed.

Lemma saffir_simpson_range_monotone_witness :
  (Float64.leb (Float64.of_Z 70) (Float64.of_Z 120) = true /\
   point_category (Some (Float64.of_Z 70)) = 1 /\
   point_category (Some (Float64.of_Z 120)) = 4) /\
  point_category (Some (Float64.of_Z 70)) <= point_category (Some (Float64.of_Z 120)).
Proof.
  split; [repeat split |].
  exact (proj2 (saffir_simpson_range_monotone None (Float64.of_Z 70) (Float64.of_Z 120))
           eq_refl eq_refl eq_refl).
Defined.

(** ** Handlers without a computation *)

Lemma unpack_not_two (py : python) (parts : list string) :
  length parts <> 2%nat -> exists e, unpack_lat_lon py parts = inl e.
Proof.
  intros Hlen. unfold unpack_lat_lon.
  destruct parts as [|a [|b [|c rest]]]; simpl in Hlen; try lia; simpl.
  - eauto.
  - destruct (py_float py a); simpl; eauto.
  - destruct (py_float py a); simpl; eauto.
    destruct (py_float py b); simpl; eauto.
    destruct (py_float py c); simpl; eauto.
Qed.

(** C3, as written, fails: a location without a comma cannot be unpacked
    into two floats, whatever [float] answers, and the response is the
    error payload, which has no 'return_periods'. *)
Lemma return_periods_needs_location :
  ~ exists py : python, always_return_periods py.
Proof.
  intros [py H].
  specialize (H (Sample.get [("location", "abc")]) initial_state).
  destruct (unpack_not_two py (split_on "," "abc")) as [e He]; [simpl; lia |].
  unfold get_return_periods, get_return_periods_body, try_except in H.
  unfold mbind, M_bind, lift, args_get in H.
  change (default _ (assoc "location" (args (Sample.get [("location", "abc")]))))
    with "abc"%string in H.
  rewrite He in H. discriminate H.
Qed.

(** C3, amended. When the location splits at its commas into exactly two
    parts that [float] accepts, the response is a success whose
    'return_periods' is the fixed table 10: 90, 25: 110, 50: 125, 100: 140,
    250: 155; the location and metric are echoed, the unit is 'mph' for the
    metric 'wind_speed' and 'ft' otherwise, and the state is left as it was. *)
Theorem return_periods_placeholder
    (py : python) (req : request) (s : state) (a b : string) (lat_v lon_v : spec_float) :
  split_on "," (args_get req "location" "25.7617,-80.1918") = [a; b] ->
  py_float py a = inr lat_v ->
  py_float py b = inr lon_v ->
  get_return_periods py req s =
    (Response
       (JObj [("location", JObj [("lat", JFloat lat_v); ("lon", JFloat lon_v)]);
              ("metric", JStr (args_get req "metric" "wind_speed"));
              ("return_periods",
               JObj [("10", JInt 90); ("25", JInt 110); ("50", JInt 125);
                     ("100", JInt 140); ("250", JInt 155)]);
              ("unit", JStr (if String.eqb (args_get req "metric" "wind_speed") "wind_speed"
                             then "mph" else "ft"))])
       200,
     s).
Proof.
  intros Hsplit Ha Hb.
  unfold get_return_periods, get_return_periods_body, try_except.
  unfold mbind, M_bind, lift. rewrite Hsplit. simpl.
  unfold mbind, result_bind. rewrite Ha, Hb. reflexivity.
Qed.

Lemma return_periods_placeholder_witness :
  get_return_periods Sample.py
    (Sample.get [("location", "25,-80"); ("metric", "surge_height")]) initial_state =
    (Response
       (JObj [("location", JObj [("lat", JFloat (Float64.of_Z 25));
                                 ("lon", JFloat (Float64.of_Z (-80)))]);
              ("metric", JStr "surge_height");
              ("return_periods",
               JObj [("10", JInt 90); ("25", JInt 110); ("50", JInt 125);
                     ("100", JInt 140); ("250", JInt 155)]);
              ("unit", JStr "ft")])
       200,
     initial_state).
Proof.
  exact (return_periods_placeholder Sample.py
           (Sample.get [("location", "25,-80"); ("metric", "surge_height")])
           initial_state "25" "-80" _ _ eq_refl eq_refl eq_refl).
Defined.

(** C4, as written, fails: a body that decodes to a JSON array has no
    [get]; the handler raises and answers 500 with the error payload, not
    the success payload. *)
Lemma wind_field_needs_object :
  calculate_wind_field (Sample.post (JArr [])) initial_state =
    (Response (JObj [("error", JStr "'list' object has no attribute 'get'")]) 500,
     initial_state).
Proof. reflexivity. Qed.

(** C4, amended. For every request whose body decodes to a JSON object the
    wind-field handler answers 200 with the fixed payload, which echoes the
    'track_id' of the body (null when absent) and its 'resolution' (10 when
    absent); it computes nothing, and it leaves the state as it was: no
    library call is made and the cache is not touched. *)
Theorem wind_field_placeholder (req : request) (s : state) (fields : list (string * json)) :
  json_body req = inr (JObj fields) ->
  calculate_wind_field req s =
    (Response
       (JObj [("status", JStr "success");
              ("message", JStr "Wind field calculation requires significant computation");
              ("track_id", default JNull (assoc "track_id" fields));
              ("resolution", default (JInt 10) (assoc "resolution" fields))])
       200,
     s).
Proof.
  intros Hbody.
  unfold calculate_wind_field, calculate_wind_field_body, try_except.
  unfold mbind, M_bind, lift. rewrite Hbody. reflexivity.
Qed.

Lemma wind_field_placeholder_witness :
  calculate_wind_field (Sample.post (JObj [("track_id", JStr "1992230N11325")]))
    initial_state =
    (Response
       (JObj [("status", JStr "success");
              ("message", JStr "Wind field calculation requires significant computation");
              ("track_id", JStr "1992230N11325");
              ("resolution", JInt 10)])
       200,
     initial_state).
Proof.
  exact (wind_field_placeholder (Sample.post (JObj [("track_id", JStr "1992230N11325")]))
           initial_state [("track_id", JStr "1992230N11325")] eq_refl).
Defined.

(** ** The cache key *)

#[local] Arguments String.append !_ _ / : simpl nomatch.

Lemma append_assoc (a b c : string) : (a +:+ b) +:+ c = a +:+ (b +:+ c).
Proof. induction a as [|x a IH]; simpl; [reflexivity | by f_equal]. Qed.

Lemma mentions_append (c : ascii) (a b : string) :
  mentions c (a +:+ b) = mentions c a || mentions c b.
Proof.
  induction a as [|x a IH]; simpl; [reflexivity |].
  by rewrite IH, orb_assoc.
Qed.

Lemma mentions_uint (d : Decimal.uint) : mentions "_" (NilEmpty.string_of_uint d) = false.
Proof. induction d; simpl; auto. Qed.

Lemma str_of_Z_no_underscore (n : Z) : mentions "_" (str_of_Z n) = false.
Proof.
  unfold str_of_Z. destruct (Z.to_int n) as [d|d]; simpl; apply mentions_uint.
Qed.

Lemma str_of_Z_inj (m n : Z) : str_of_Z m = str_of_Z n -> m = n.
Proof.
  unfold str_of_Z. intros H. apply DecimalZ.to_int_inj.
  assert (Some (Z.to_int m) = Some (Z.to_int n)) as [= ->]; [| reflexivity].
  rewrite <- (NilEmpty.isi (Z.to_int m)), <- (NilEmpty.isi (Z.to_int n)).
  by rewrite H.
Qed.

(** A string is cut at its last occurrence of a character in one way only. *)
Lemma last_cut (c : ascii) (x x' r r' : string) :
  mentions c r = false -> mentions c r' = false ->
  x +:+ String c r = x' +:+ String c r' -> x = x' /\ r = r'.
Proof.
  intros Hr Hr'. revert x'.
  induction x as [|a x IH]; intros [|a' x'] H; simpl in H.
  - by injection H as ->.
  - injection H as <- ->. rewrite mentions_append in Hr. simpl in Hr.
    rewrite Ascii.eqb_refl in Hr. simpl in Hr. by rewrite orb_true_r in Hr.
  - injection H as -> <-. rewrite mentions_append in Hr'. simpl in Hr'.
    rewrite Ascii.eqb_refl in Hr'. simpl in Hr'. by rewrite orb_true_r in Hr'.
  - injection H as -> H. destruct (IH _ H) as [-> ->]. done.
Qed.

Lemma cache_key_inj (b b' : string) (y1 y2 y1' y2' : Z) :
  cache_key b y1 y2 = cache_key b' y1' y2' -> b = b' /\ y1 = y1' /\ y2 = y2'.
Proof.
  unfold cache_key. intros H. simpl in H. injection H as H.
  assert (E : forall a x y : string,
             a +:+ String "_" (x +:+ y) = (a +:+ String "_" x) +:+ y)
    by (intros; by rewrite append_assoc).
  rewrite !E in H.
  apply last_cut in H as [H H2]; try apply str_of_Z_no_underscore.
  apply last_cut in H as [H H1]; try apply str_of_Z_no_underscore.
  split; [done |]. split; by apply str_of_Z_inj.
Qed.

(** ** The historical-tracks handler, case by case *)

#[local] Arguments cache_key : simpl never.

Ltac unfold_M :=
  unfold try_except, mbind, M_bind, mret, M_ret, lift, call,
    cache_missing, cache_store, cache_load in *.

Lemma historical_bad_params (py : python) (lib : climada) (req : request) (s : state)
    (e : exn) :
  historical_params py req = inl e ->
  get_historical_tracks py lib req s = (error_response e, s).
Proof.
  intros Hp. unfold get_historical_tracks, get_historical_tracks_body.
  unfold_M. by rewrite Hp.
Qed.

Lemma historical_hit (py : python) (lib : climada) (req : request) (s : state)
    (b : string) (y1 y2 : Z) (v : json) :
  historical_params py req = inr (b, y1, y2) ->
  cache s !! cache_key b y1 y2 = Some v ->
  get_historical_tracks py lib req s = (ok v, s).
Proof.
  intros Hp Hc. unfold get_historical_tracks, get_historical_tracks_body.
  unfold_M. rewrite Hp. cbn beta iota zeta. rewrite Hc.
  rewrite bool_decide_eq_false_2 by discriminate. cbn beta iota. by rewrite Hc.
Qed.

Lemma historical_miss (py : python) (lib : climada) (req : request) (s : state)
    (b : string) (y1 y2 : Z) :
  historical_params py req = inr (b, y1, y2) ->
  cache s !! cache_key b y1 y2 = None ->
  get_historical_tracks py lib req s =
    let s' := State (cache s) (calls s ++ [CallIbtracs (y1, y2) (JStr b)]) in
    match from_ibtracs_netcdf lib (y1, y2) (JStr b) with
    | inl e => (error_response e, s')
    | inr tc_tracks =>
        match foldM (historical_track py b y1) [] tc_tracks with
        | inl e => (error_response e, s')
        | inr features =>
            let v := historical_collection b y1 y2 features in
            (ok v, State (<[cache_key b y1 y2 := v]> (cache s)) (calls s'))
        end
    end.
Proof.
  intros Hp Hc. unfold get_historical_tracks, get_historical_tracks_body.
  unfold_M. rewrite Hp. cbn beta iota zeta. rewrite Hc.
  rewrite bool_decide_eq_true_2 by reflexivity. cbn beta iota.
  destruct (from_ibtracs_netcdf lib (y1, y2) (JStr b)) as [e|tc_tracks];
    [reflexivity |].
  destruct (foldM (historical_track py b y1) [] tc_tracks) as [e|features];
    [reflexivity |].
  cbn. by rewrite lookup_insert_eq.
Qed.

(** What a successful historical-tracks request leaves in the cache. *)
Lemma historical_success (py : python) (lib : climada) (req : request) (s s' : state)
    (r : response) :
  get_historical_tracks py lib req s = (r, s') ->
  status r = 200 ->
  exists b y1 y2,
    historical_params py req = inr (b, y1, y2) /\
    cache s' !! cache_key b y1 y2 = Some (body r) /\
    r = ok (body r).
Proof.
  intros Hrun Hok.
  destruct (historical_params py req) as [e|[[b y1] y2]] eqn:Hp.
  { rewrite (historical_bad_params _ _ _ _ _ Hp) in Hrun.
    injection Hrun as <- <-. discriminate Hok. }
  exists b, y1, y2. split; [reflexivity |].
  destruct (cache s !! cache_key b y1 y2) as [v|] eqn:Hc.
  - rewrite (historical_hit _ _ _ _ _ _ _ _ Hp Hc) in Hrun.
    injection Hrun as <- <-. by split.
  - rewrite (historical_miss _ _ _ _ _ _ _ Hp Hc) in Hrun. cbn zeta in Hrun.
    destruct (from_ibtracs_netcdf lib (y1, y2) (JStr b)) as [e|tc_tracks].
    { injection Hrun as <- <-. discriminate Hok. }
    destruct (foldM (historical_track py b y1) [] tc_tracks) as [e|features].
    { injection Hrun as <- <-. discriminate Hok. }
    injection Hrun as <- <-. cbn. by rewrite lookup_insert_eq.
Qed.

(** ** No entry of the cache is ever dropped or changed *)






(** ** The points of a track *)

Lemma valid_coordinates_length (t : track) :
  (length (valid_coordinates t) <= length (lat t))%nat.
Proof.
  unfold valid_coordinates, positions. rewrite length_map.
  etrans; [apply List.filter_length_le |].
  rewrite length_zip. lia.
Qed.

Lemma short_track_not_kept (t : track) :
  (length (lat t) <? 3)%nat = true -> kept t = false.
Proof.
  intros H%Nat.ltb_lt. unfold kept. apply Nat.leb_gt.
  pose proof (valid_coordinates_length t). lia.
Qed.

Lemma positions_nil_r (lats : list spec_float) : positions lats [] = [].
Proof. by destruct lats. Qed.

Lemma synthetic_point_cases (t : track) (acc : list json) (i : nat) :
  synthetic_point t acc i =
    match lat t !! i with
    | None => raise (out_of_bounds i (length (lat t)))
    | Some a =>
        if Float64.isnan a then inr acc
        else match lon t !! i with
             | None => raise (out_of_bounds i (length (lon t)))
             | Some o =>
                 if Float64.isnan o then inr acc else inr (acc ++ [coordinate o a])
             end
    end.
Proof.
  unfold synthetic_point, getitem.
  destruct (lat t !! i) as [a|]; [| reflexivity]. simpl.
  destruct (Float64.isnan a); [reflexivity |]. simpl.
  destruct (lon t !! i) as [o|]; [| reflexivity]. simpl.
  by destruct (Float64.isnan o).
Qed.

Lemma positions_cons (a o : spec_float) (lats lons : list spec_float) :
  positions (a :: lats) (o :: lons) =
    if negb (Float64.isnan a) && negb (Float64.isnan o)
    then coordinate o a :: positions lats lons
    else positions lats lons.
Proof.
  unfold positions. simpl. unfold has_position at 1. simpl.
  by destruct (negb (Float64.isnan a) && negb (Float64.isnan o)).
Qed.

Lemma synthetic_points_from (t : track) (n i : nat) (acc cs : list json) :
  (i + n = length (lat t))%nat ->
  foldM (synthetic_point t) acc (seq i n) = inr cs ->
  cs = acc ++ positions (drop i (lat t)) (drop i (lon t)).
Proof.
  revert i acc. induction n as [|n IH]; intros i acc Hlen Hrun.
  - simpl in Hrun. injection Hrun as <-.
    rewrite (drop_ge (lat t)) by lia. by rewrite app_nil_r.
  - change (seq i (S n)) with (i :: seq (S i) n) in Hrun.
    change (foldM ?f ?a (?x :: ?l)) with (f a x ≫= fun a' => foldM f a' l) in Hrun.
    rewrite synthetic_point_cases in Hrun.
    destruct (lookup_lt_is_Some_2 (lat t) i) as [a Ha]; [lia |].
    rewrite (drop_S _ _ _ Ha). rewrite Ha in Hrun.
    destruct (Float64.isnan a) eqn:Na.
    + apply IH in Hrun; [| lia]. rewrite Hrun. f_equal.
      destruct (lon t !! i) as [o|] eqn:Ho.
      * rewrite (drop_S _ _ _ Ho), positions_cons. by rewrite Na.
      * apply lookup_ge_None in Ho.
        rewrite !(drop_ge (lon t)) by lia. by rewrite !positions_nil_r.
    + destruct (lon t !! i) as [o|] eqn:Ho; [| discriminate Hrun].
      rewrite (drop_S _ _ _ Ho), positions_cons, Na.
      destruct (Float64.isnan o) eqn:No.
      * apply IH in Hrun; [| lia]. by rewrite Hrun.
      * apply IH in Hrun; [| lia]. rewrite Hrun. by rewrite <- app_assoc.
Qed.

Lemma synthetic_points_valid (t : track) (cs : list json) :
  synthetic_points t = inr cs -> cs = valid_coordinates t.
Proof.
  intros H. apply synthetic_points_from in H; [| lia]. by rewrite !drop_0 in H.
Qed.

Lemma historical_point_coordinates (t : track) (i : nat) (acc acc' : list json * list Z) :
  historical_point t acc i = inr acc' ->
  synthetic_point t acc.1 i = inr acc'.1 /\
  (length acc.1 = length acc.2 -> length acc'.1 = length acc'.2).
Proof.
  unfold historical_point, synthetic_point.
  destruct (getitem (lat t) i) as [e|a]; simpl; [done |].
  destruct (Float64.isnan a); simpl; [by intros [= <-] |].
  destruct (getitem (lon t) i) as [e|o]; simpl; [done |].
  destruct (Float64.isnan o); simpl; [by intros [= <-] |].
  destruct (max_sustained_wind t) as [winds|]; simpl.
  - destruct (getitem winds i) as [e|w]; simpl; [done |].
    intros [= <-]. simpl. split; [done |]. rewrite !length_app. simpl. lia.
  - intros [= <-]. simpl. split; [done |]. rewrite !length_app. simpl. lia.
Qed.

Lemma historical_points_coordinates (t : track) (l : list nat)
    (acc acc' : list json * list Z) :
  foldM (historical_point t) acc l = inr acc' ->
  foldM (synthetic_point t) acc.1 l = inr acc'.1 /\
  (length acc.1 = length acc.2 -> length acc'.1 = length acc'.2).
Proof.
  revert acc. induction l as [|i l IH]; intros acc; simpl.
  - by intros [= <-].
  - destruct (historical_point t acc i) as [e|acc1] eqn:Hstep; simpl; [done |].
    apply historical_point_coordinates in Hstep as [-> Hlen]. simpl.
    intros H. apply IH in H as [H1 H2]. split; [done |]. auto.
Qed.

Lemma historical_points_valid (t : track) (cs : list json) (cats : list Z) :
  historical_points t = inr (cs, cats) ->
  cs = valid_coordinates t /\ length cats = length cs.
Proof.
  intros H. apply historical_points_coordinates in H as [H1 H2]. simpl in *.
  split; [by apply synthetic_points_valid | symmetry; by apply H2].
Qed.

(** ** The tracks of a collection *)

Lemma historical_feature_geometry (py : python) (b : string) (y : Z) (t : track)
    (cs : list json) (cats : list Z) (f : json) :
  historical_feature py b y t cs cats = inr f ->
  json_field "geometry" f = Some (line_string cs).
Proof.
  unfold historical_feature.
  destruct (name t); simpl;
    destruct (track_sid t); simpl; try done;
    destruct (max_sustained_wind t); simpl; try done;
    try (destruct (np_nanmax py _); simpl; try done);
    by intros [= <-].
Qed.

Ltac unfold_result := unfold mbind, result_bind, mret, result_ret, raise.

Lemma foldM_cons {A B : Type} (f : B -> A -> result B) (acc : B) (x : A) (xs : list A) :
  foldM f acc (x :: xs) =
    match f acc x with
    | inl e => inl e
    | inr acc' => foldM f acc' xs
    end.
Proof. reflexivity. Qed.

Lemma synthetic_track_cases (sc : json) (acc : list json) (i : nat) (t : track)
    (fs : list json) :
  synthetic_track sc acc (i, t) = inr fs ->
  fs = acc ++ (if kept t then [synthetic_feature sc i (valid_coordinates t)] else []).
Proof.
  unfold synthetic_track.
  destruct (length (lat t) <? 3)%nat eqn:Hshort.
  - intros [= <-]. by rewrite (short_track_not_kept _ Hshort), app_nil_r.
  - destruct (synthetic_points t) as [e|cs] eqn:Hpts; unfold_result; [done |].
    apply synthetic_points_valid in Hpts as ->. unfold kept.
    destruct (3 <=? length (valid_coordinates t))%nat; intros [= <-];
      [done | by rewrite app_nil_r].
Qed.

Lemma synthetic_tracks_kept (sc : json) (its : list (nat * track)) (acc fs : list json) :
  foldM (synthetic_track sc) acc its = inr fs ->
  fs = acc ++ map (fun it : nat * track => synthetic_feature sc it.1 (valid_coordinates it.2))
                  (List.filter (fun it : nat * track => kept it.2) its).
Proof.
  revert acc. induction its as [|[i t] its IH]; intros acc.
  - intros [= <-]. by rewrite app_nil_r.
  - rewrite foldM_cons.
    destruct (synthetic_track sc acc (i, t)) as [e|acc1] eqn:Hstep; [done |].
    apply synthetic_track_cases in Hstep as ->.
    intros H. apply IH in H as ->. rewrite <- app_assoc. simpl.
    by destruct (kept t).
Qed.

Lemma historical_track_cases (py : python) (b : string) (y : Z) (acc : list json)
    (t : track) (fs : list json) :
  historical_track py b y acc t = inr fs ->
  if kept t
  then exists cats f,
         historical_feature py b y t (valid_coordinates t) cats = inr f /\
         fs = acc ++ [f]
  else fs = acc.
Proof.
  unfold historical_track.
  destruct (length (lat t) <? 3)%nat eqn:Hshort.
  - intros [= <-]. by rewrite (short_track_not_kept _ Hshort).
  - destruct (historical_points t) as [e|[cs cats]] eqn:Hpts; unfold_result; [done |].
    apply historical_points_valid in Hpts as [-> _]. unfold kept.
    destruct (3 <=? length (valid_coordinates t))%nat; [| by intros [= <-]].
    destruct (historical_feature py b y t (valid_coordinates t) cats) as [e|f] eqn:Hf;
      [done |].
    intros [= <-]. eauto.
Qed.

Lemma historical_tracks_kept (py : python) (b : string) (y : Z) (ts : list track)
    (acc fs : list json) :
  foldM (historical_track py b y) acc ts = inr fs ->
  exists fs',
    fs = acc ++ fs' /\
    Forall2 (feature_of_track py b y) fs' (List.filter kept ts).
Proof.
  revert acc. induction ts as [|t ts IH]; intros acc.
  - intros [= <-]. exists []. by rewrite app_nil_r.
  - rewrite foldM_cons.
    destruct (historical_track py b y acc t) as [e|acc1] eqn:Hstep; [done |].
    apply historical_track_cases in Hstep.
    intros H. apply IH in H as (fs' & -> & Hall). simpl.
    destruct (kept t).
    + destruct Hstep as (cats & f & Hf & ->). exists (f :: fs').
      rewrite <- app_assoc. split; [done |]. constructor; [by exists cats | done].
    + subst acc1. eauto.
Qed.

Lemma filter_enumerate (i : nat) (ts : list track) :
  map snd (List.filter (fun it : nat * track => kept it.2) (enumerate_from i ts))
  = List.filter kept ts.
Proof.
  revert i. induction ts as [|t ts IH]; intros i; simpl; [done |].
  destruct (kept t); simpl; by rewrite IH.
Qed.

(** ** The synthetic-tracks handler *)

(** Whether a turn of the track loop raises, and with what, depends on the
    track alone. *)
Lemma synthetic_track_scenario (sc1 sc2 : json) (acc1 acc2 : list json) (it : nat * track) :
  match synthetic_track sc1 acc1 it, synthetic_track sc2 acc2 it with
  | inl e1, inl e2 => e1 = e2
  | inr _, inr _ => True
  | _, _ => False
  end.
Proof.
  destruct it as [i t]. unfold synthetic_track.
  destruct (length (lat t) <? 3)%nat; [done |].
  destruct (synthetic_points t) as [e|cs]; unfold_result; [done |].
  by destruct (3 <=? length cs)%nat.
Qed.

Lemma synthetic_tracks_scenario (sc1 sc2 : json) (its : list (nat * track))
    (acc1 acc2 : list json) :
  match foldM (synthetic_track sc1) acc1 its, foldM (synthetic_track sc2) acc2 its with
  | inl e1, inl e2 => e1 = e2
  | inr _, inr _ => True
  | _, _ => False
  end.
Proof.
  revert acc1 acc2. induction its as [|it its IH]; intros acc1 acc2; [done |].
  rewrite !foldM_cons.
  pose proof (synthetic_track_scenario sc1 sc2 acc1 acc2 it) as H.
  destruct (synthetic_track sc1 acc1 it), (synthetic_track sc2 acc2 it); try done.
  apply IH.
Qed.

(** The handler, step by step. *)
Lemma synthetic_run (py : python) (lib : climada) (req : request) (s : state) :
  generate_synthetic_tracks py lib req s =
    match json_body req with
    | inl e => (error_response e, s)
    | inr data =>
    match data with
    | JObj fields =>
      let scenario := default (JStr "historical") (assoc "scenario" fields) in
      let n_years := default (JInt 100) (assoc "years" fields) in
      let basin := default (JStr "NA") (assoc "basin" fields) in
      let s1 := State (cache s) (calls s ++ [CallIbtracs (1980, 2020) basin]) in
      match from_ibtracs_netcdf lib (1980, 2020) basin with
      | inl e => (error_response e, s1)
      | inr tc_tracks =>
      match int_truediv py n_years 40 with
      | inl e => (error_response e, s1)
      | inr nb =>
      let s2 := State (cache s) (calls s1 ++ [CallPerturbed nb]) in
      match calc_perturbed_trajectories lib tc_tracks nb with
      | inl e => (error_response e, s2)
      | inr synth =>
      match foldM (synthetic_track scenario) []
              (enumerate_from 0 (take (Nat.min 50 (length synth)) synth)) with
      | inl e => (error_response e, s2)
      | inr features =>
          (ok (synthetic_collection scenario features (length synth)), s2)
      end end end end
    | _ => (error_response
              (Exn "AttributeError"
                 ("'" +:+ type_name data +:+ "' object has no attribute 'get'")), s)
    end
    end.
Proof.
  unfold generate_synthetic_tracks, generate_synthetic_tracks_body. unfold_M.
  destruct (json_body req) as [e|data]; [reflexivity |].
  destruct data; try reflexivity.
  unfold dict_get. unfold_result. cbv zeta.
  destruct (from_ibtracs_netcdf lib _ _); [reflexivity |].
  destruct (int_truediv py _ _); [reflexivity |].
  destruct (calc_perturbed_trajectories lib _ _); [reflexivity |].
  cbn [cache calls].
  by destruct (foldM _ _ _).
Qed.

Lemma synthetic_outcome (py : python) (lib : climada) (req : request) (s : state) :
  (exists e, (generate_synthetic_tracks py lib req s).1 = error_response e) \/
  (exists scenario synth,
     requested_scenario req = inr scenario /\
     synthetic_library_tracks py lib req = inr synth /\
     (generate_synthetic_tracks py lib req s).1
     = ok (synthetic_collection scenario (shown_features scenario synth) (length synth))).
Proof.
  rewrite synthetic_run. unfold requested_scenario, synthetic_library_tracks.
  destruct (json_body req) as [e|data]; [left; eauto |].
  destruct data; try solve [left; eauto].
  unfold dict_get. unfold_result. cbv zeta.
  destruct (from_ibtracs_netcdf lib _ _) as [e|tc_tracks]; [left; eauto |].
  destruct (int_truediv py _ _) as [e|nb]; [left; eauto |].
  destruct (calc_perturbed_trajectories lib _ _) as [e|synth]; [left; eauto |].
  destruct (foldM _ _ _) as [e|features] eqn:Hfold; [left; eauto |].
  right. eexists _, synth. split; [reflexivity |]. split; [reflexivity |].
  apply synthetic_tracks_kept in Hfold as ->. reflexivity.
Qed.

Lemma length_enumerate_from {A : Type} (i : nat) (xs : list A) :
  length (enumerate_from i xs) = length xs.
Proof. revert i. induction xs as [|x xs IH]; intros i; simpl; [done | by rewrite IH]. Qed.

Lemma shown_features_length (scenario : json) (synth : list track) :
  (length (shown_features scenario synth) <= Nat.min 50 (length synth))%nat.
Proof.
  unfold shown_features. rewrite length_map.
  etrans; [apply List.filter_length_le |].
  rewrite length_enumerate_from, length_take. lia.
Qed.

Lemma features_of_synthetic (sc : json) (fs : list json) (n : nat) :
  features_of (synthetic_collection sc fs n) = fs.
Proof. reflexivity. Qed.

Lemma geometries_of_shown (sc : json) (synth : list track) (n : nat) :
  geometries_of (synthetic_collection sc (shown_features sc synth) n)
  = track_geometries (take (Nat.min 50 (length synth)) synth).
Proof.
  unfold geometries_of, track_geometries. rewrite features_of_synthetic. unfold shown_features.
  rewrite <- (filter_enumerate 0), !map_map. reflexivity.
Qed.

(** C10. Two synthetic-tracks requests that differ only in the value of
    'scenario', served by the same library from the same state, make the
    same library calls and get the same status, the same feature geometries
    and the same 'total_tracks' and 'displayed_tracks'; the responses are
    equal, or are the same collection of the same tracks with each request's
    own scenario value written in its 'scenario' properties.  The factors of
    [climate_factors] reach neither the library nor the response. *)
Theorem scenario_not_applied (py : python) (lib : climada) (req1 req2 : request)
    (s : state) :
  differ_only_in_scenario req1 req2 ->
  let out1 := generate_synthetic_tracks py lib req1 s in
  let out2 := generate_synthetic_tracks py lib req2 s in
  out1.2 = out2.2 /\
  status out1.1 = status out2.1 /\
  geometries_of (body out1.1) = geometries_of (body out2.1) /\
  property_of "total_tracks" (body out1.1) = property_of "total_tracks" (body out2.1) /\
  property_of "displayed_tracks" (body out1.1)
  = property_of "displayed_tracks" (body out2.1) /\
  (out1.1 = out2.1 \/
   exists sc1 sc2 synth,
     requested_scenario req1 = inr sc1 /\
     requested_scenario req2 = inr sc2 /\
     out1.1 = ok (synthetic_collection sc1 (shown_features sc1 synth) (length synth)) /\
     out2.1 = ok (synthetic_collection sc2 (shown_features sc2 synth) (length synth))).
Proof.
  intros [_ Hbody] out1 out2. subst out1 out2. rewrite !synthetic_run.
  unfold requested_scenario.
  destruct (json_body req1) as [e1|data1], (json_body req2) as [e2|data2].
  - injection Hbody as <-. repeat split; auto.
  - destruct data2; discriminate Hbody.
  - destruct data1; discriminate Hbody.
  - destruct data1 as [| | | | | |fields1];
      try (injection Hbody as <-; repeat split; auto; fail).
    destruct data2 as [| | | | | |fields2]; try discriminate Hbody.
    cbv zeta.
    rewrite <- (Hbody "years") by discriminate.
    rewrite <- (Hbody "basin") by discriminate.
    destruct (from_ibtracs_netcdf lib _ _) as [e|tc_tracks]; [repeat split; auto |].
    destruct (int_truediv py _ _) as [e|nb]; [repeat split; auto |].
    destruct (calc_perturbed_trajectories lib _ _) as [e|synth]; [repeat split; auto |].
    set (sc1 := default (JStr "historical") (assoc "scenario" fields1)).
    set (sc2 := default (JStr "historical") (assoc "scenario" fields2)).
    set (its := enumerate_from 0 (take (Nat.min 50 (length synth)) synth)).
    pose proof (synthetic_tracks_scenario sc1 sc2 its [] []) as Hsame.
    destruct (foldM (synthetic_track sc1) [] its) as [e1|fs1] eqn:H1,
             (foldM (synthetic_track sc2) [] its) as [e2|fs2] eqn:H2; try done.
    + subst e2. repeat split; auto.
    + apply synthetic_tracks_kept in H1, H2. simpl in H1, H2. subst its.
      fold (shown_features sc1 synth) in H1. fold (shown_features sc2 synth) in H2.
      subst fs1 fs2. cbn [fst snd body status ok].
      split; [reflexivity |]. split; [reflexivity |].
      split; [by rewrite !geometries_of_shown |].
      split; [reflexivity |].
      split.
      * unfold property_of, synthetic_collection, shown_features. simpl.
        by rewrite !length_map.
      * right. exists sc1, sc2, synth. unfold dict_get. by repeat split.
Qed.

Lemma scenario_not_applied_witness :
  let lib := Sample.library [Sample.storm] [Sample.storm; Sample.short_storm; Sample.storm] in
  let req1 := Sample.post (JObj [("scenario", JStr "historical"); ("years", JInt 80)]) in
  let req2 := Sample.post (JObj [("years", JInt 80); ("scenario", JStr "rcp85")]) in
  let out1 := generate_synthetic_tracks Sample.py lib req1 initial_state in
  let out2 := generate_synthetic_tracks Sample.py lib req2 initial_state in
  (climate_factors (JStr "historical") = None /\
   climate_factors (JStr "rcp85") = Some (14 # 10, 115 # 100)%Q /\
   status out1.1 = 200 /\
   length (geometries_of (body out1.1)) = 2%nat /\
   out1.1 <> out2.1) /\
  geometries_of (body out1.1) = geometries_of (body out2.1).
Proof.
  intros lib req1 req2 out1 out2.
  split; [repeat split; by vm_compute |].
  refine (proj1 (proj2 (proj2 (scenario_not_applied Sample.py lib req1 req2 initial_state _)))).
  split; [reflexivity |]. simpl. intros k Hk.
  destruct (String.eqb_spec k "scenario") as [-> | _]; [done |].
  by destruct (String.eqb k "years").
Defined.

(** ** The collections in the cache *)

Lemma features_geometries (py : python) (b : string) (y : Z) (fs : list json)
    (ts : list track) :
  Forall2 (feature_of_track py b y) fs ts ->
  map (json_field "geometry") fs
  = map (fun t => Some (line_string (valid_coordinates t))) ts.
Proof.
  induction 1 as [|f t fs ts [cats Hf] _ IH]; simpl; [done |].
  by rewrite (historical_feature_geometry _ _ _ _ _ _ _ Hf), IH.
Qed.

Lemma historical_collection_of (py : python) (b : string) (y1 y2 : Z) (ts : list track)
    (fs : list json) :
  foldM (historical_track py b y1) [] ts = inr fs ->
  Forall2 (feature_of_track py b y1) fs (List.filter kept ts) /\
  collection_of ts (historical_collection b y1 y2 fs).
Proof.
  intros H. apply historical_tracks_kept in H as (fs' & -> & Hall). simpl.
  split; [done |]. split; [| reflexivity].
  unfold geometries_of, track_geometries.
  change (features_of (historical_collection b y1 y2 fs')) with fs'.
  by apply (features_geometries py b y1).
Qed.

Lemma serve_cache (py : python) (ep : endpoint) (lib : climada) (req : request)
    (s : state) :
  cache (serve py ep lib req s).2 = cache s \/
  exists b y1 y2 ts fs,
    foldM (historical_track py b y1) [] ts = inr fs /\
    cache (serve py ep lib req s).2
    = <[cache_key b y1 y2 := historical_collection b y1 y2 fs]> (cache s).
Proof.
  destruct ep; simpl.
  - left. unfold get_version, get_version_body. unfold_M.
    by destruct (climada_version lib).
  - destruct (historical_params py req) as [e|[[b y1] y2]] eqn:Hp.
    { left. by rewrite (historical_bad_params _ _ _ _ _ Hp). }
    destruct (cache s !! cache_key b y1 y2) as [v'|] eqn:Hc.
    { left. by rewrite (historical_hit _ _ _ _ _ _ _ _ Hp Hc). }
    rewrite (historical_miss _ _ _ _ _ _ _ Hp Hc). cbn zeta.
    destruct (from_ibtracs_netcdf lib (y1, y2) (JStr b)) as [e|ts]; [by left |].
    destruct (foldM (historical_track py b y1) [] ts) as [e|fs] eqn:Hfold; [by left |].
    right. by exists b, y1, y2, ts, fs.
  - left. rewrite synthetic_run. repeat (case_match; cbv zeta); reflexivity.
  - left. unfold calculate_wind_field, calculate_wind_field_body. unfold_M.
    repeat (case_match; simplify_eq/=; try done).
  - left. unfold calculate_impact, calculate_impact_body. unfold_M.
    repeat (case_match; simplify_eq/=; try done).
  - left. unfold get_return_periods, get_return_periods_body. unfold_M.
    repeat (case_match; simplify_eq/=; try done).
Qed.

Lemma take_min_length {A : Type} (n : nat) (l : list A) :
  take (Nat.min n (length l)) l = take n l.
Proof.
  destruct (Nat.le_ge_cases n (length l)) as [H|H].
  - by rewrite Nat.min_l.
  - rewrite Nat.min_r by done. by rewrite !take_ge by lia.
Qed.

(* ===================================================================== *)
(** * Further properties of the handlers *)
(* ===================================================================== *)

(** ** How the cache changes *)

Lemma serve_cache_change
    (py : python) (ep : endpoint) (lib : climada) (req : request) (s : state) :
  cache (serve py ep lib req s).2 = cache s \/
  (ep = HistoricalTracks /\
   status (serve py ep lib req s).1 = 200 /\
   exists b y1 y2,
     historical_params py req = inr (b, y1, y2) /\
     cache s !! cache_key b y1 y2 = None /\
     cache (serve py ep lib req s).2
     = <[cache_key b y1 y2 := body (serve py ep lib req s).1]> (cache s)).
Proof.
  destruct ep.
  - left. unfold serve, get_version, get_version_body. unfold_M.
    by destruct (climada_version lib).
  - simpl.
    destruct (historical_params py req) as [e|[[b y1] y2]] eqn:Hp.
    { left. by rewrite (historical_bad_params _ _ _ _ _ Hp). }
    destruct (cache s !! cache_key b y1 y2) as [v'|] eqn:Hc.
    { left. by rewrite (historical_hit _ _ _ _ _ _ _ _ Hp Hc). }
    rewrite (historical_miss _ _ _ _ _ _ _ Hp Hc). cbn zeta.
    destruct (from_ibtracs_netcdf lib (y1, y2) (JStr b)) as [e|ts]; [by left |].
    destruct (foldM (historical_track py b y1) [] ts) as [e|fs]; [by left |].
    right. split; [done |]. split; [done |]. by exists b, y1, y2.
  - left. simpl. rewrite synthetic_run. repeat (case_match; cbv zeta); reflexivity.
  - left. simpl. unfold calculate_wind_field, calculate_wind_field_body. unfold_M.
    repeat (case_match; simplify_eq/=; try done).
  - left. simpl. unfold calculate_impact, calculate_impact_body. unfold_M.
    repeat (case_match; simplify_eq/=; try done).
  - left. simpl. unfold get_return_periods, get_return_periods_body. unfold_M.
    repeat (case_match; simplify_eq/=; try done).
Qed.

(** X1. A request changes the cache in one case only: a historical-tracks
    request that is answered 200 for a triple whose key was missing stores
    its response under that key.  A request answered with an error, and a
    request on any other route, leaves the cache as it was: a failure is
    never cached. *)
Theorem cache_written_only_by_fresh_success
    (py : python) (ep : endpoint) (lib : climada) (req : request) (s : state) :
  let out := serve py ep lib req s in
  (status out.1 <> 200 -> cache out.2 = cache s) /\
  (ep <> HistoricalTracks -> cache out.2 = cache s) /\
  (cache out.2 <> cache s ->
   exists b y1 y2,
     historical_params py req = inr (b, y1, y2) /\
     cache s !! cache_key b y1 y2 = None /\
     cache out.2 = <[cache_key b y1 y2 := body out.1]> (cache s)).
Proof.
  intros out. subst out.
  destruct (serve_cache_change py ep lib req s)
    as [H | (Hep & Hok & b & y1 & y2 & Hp & Hc & H)].
  - split; [done |]. split; [done |]. intros Hne. by destruct Hne.
  - split; [intros Hne; by destruct Hne |]. split; [intros Hne; by destruct Hne |].
    intros _. by exists b, y1, y2.
Qed.

Lemma cache_written_only_by_fresh_success_witness :
  let out := serve Sample.py HistoricalTracks Sample.failing_library
               (Sample.get []) initial_state in
  status out.1 = 500 /\ cache out.2 = cache initial_state.
Proof.
  intros out. split; [reflexivity |].
  exact (proj1 (cache_written_only_by_fresh_success Sample.py HistoricalTracks
                  Sample.failing_library (Sample.get []) initial_state)
           ltac:(discriminate)).
Defined.

Lemma serve_cache_size (py : python) (ep : endpoint) (lib : climada) (req : request)
    (s : state) :
  (size (cache s) <= size (cache (serve py ep lib req s).2) <= S (size (cache s)))%nat.
Proof.
  destruct (serve_cache_change py ep lib req s)
    as [-> | (_ & _ & b & y1 & y2 & _ & Hc & ->)]; [lia |].
  rewrite map_size_insert_None by done. lia.
Qed.

(** X2. The cache never shrinks and grows by at most one entry per request:
    after any sequence of requests it holds at least the entries it had and
    at most one more per request served; a historical-tracks request that is
    answered 200 for a missing key adds exactly one. *)
Theorem cache_size_growth
    (py : python) (reqs : list (endpoint * climada * request)) (s : state) :
  (size (cache s) <= size (cache (run py reqs s)) <= size (cache s) + length reqs)%nat /\
  (forall (lib : climada) (req : request) (b : string) (y1 y2 : Z),
     historical_params py req = inr (b, y1, y2) ->
     cache s !! cache_key b y1 y2 = None ->
     status (get_historical_tracks py lib req s).1 = 200 ->
     size (cache (get_historical_tracks py lib req s).2) = S (size (cache s))).
Proof.
  split.
  - revert s. induction reqs as [|[[ep lib] req] rest IH]; intros s; simpl; [lia |].
    pose proof (serve_cache_size py ep lib req s).
    specialize (IH (serve py ep lib req s).2). lia.
  - intros lib req b y1 y2 Hp Hc Hok.
    rewrite (historical_miss _ _ _ _ _ _ _ Hp Hc) in Hok |- *. cbn zeta in *.
    destruct (from_ibtracs_netcdf lib (y1, y2) (JStr b)) as [e|ts]; [discriminate Hok |].
    destruct (foldM (historical_track py b y1) [] ts) as [e|fs]; [discriminate Hok |].
    cbn. by rewrite map_size_insert_None.
Qed.

Lemma cache_size_growth_witness :
  let lib := Sample.library [Sample.storm] [] in
  let reqs := [(HistoricalTracks, lib, Sample.get [("basin", "NA")]);
               (HistoricalTracks, lib, Sample.get []);
               (WindField, lib, Sample.post (JObj []));
               (HistoricalTracks, lib, Sample.get [("basin", "EP")])] in
  size (cache (run Sample.py reqs initial_state)) = 2%nat /\
  size (cache (get_historical_tracks Sample.py lib (Sample.get []) initial_state).2)
  = 1%nat.
Proof.
  intros lib reqs. split; [by vm_compute |].
  exact (proj2 (cache_size_growth Sample.py [] initial_state)
           lib (Sample.get []) "NA" 2010 2020 eq_refl eq_refl eq_refl).
Defined.

(** ** What a cached response says about its query *)

Lemma serve_keyed (py : python) (ep : endpoint) (lib : climada) (req : request)
    (s : state) :
  cache_keyed s -> cache_keyed (serve py ep lib req s).2.
Proof.
  intros Hinv k v.
  destruct (serve_cache py ep lib req s) as [-> | (b & y1 & y2 & ts & fs & _ & ->)];
    [apply Hinv |].
  destruct (decide (cache_key b y1 y2 = k)) as [<- | Hne].
  - rewrite lookup_insert_eq. intros [= <-]. by exists b, y1, y2, fs.
  - rewrite lookup_insert_ne by done. apply Hinv.
Qed.

Lemma run_keyed (py : python) (reqs : list (endpoint * climada * request)) (s : state) :
  cache_keyed s -> cache_keyed (run py reqs s).
Proof.
  revert s. induction reqs as [|[[ep lib] req] rest IH]; intros s Hinv; [done |].
  simpl. apply IH. by apply serve_keyed.
Qed.

Lemma initial_keyed : cache_keyed initial_state.
Proof. intros k v. simpl. by rewrite lookup_empty. Qed.



(** ** When the translation raises *)

Lemma synthetic_points_outcome_from (t : track) (n i : nat) (acc : list json) :
  (i + n = length (lat t))%nat ->
  match foldM (synthetic_point t) acc (seq i n) with
  | inr _ =>
      forall (j : nat) (a : spec_float),
        (i <= j)%nat -> lat t !! j = Some a -> Float64.isnan a = false ->
        (j < length (lon t))%nat
  | inl e =>
      exists (j : nat) (a : spec_float),
        lat t !! j = Some a /\ Float64.isnan a = false /\
        (length (lon t) <= j)%nat /\ e = out_of_bounds j (length (lon t))
  end.
Proof.
  revert i acc. induction n as [|n IH]; intros i acc Hlen.
  - simpl. intros j a Hj Ha _. apply lookup_lt_Some in Ha. lia.
  - change (seq i (S n)) with (i :: seq (S i) n). rewrite foldM_cons.
    rewrite synthetic_point_cases.
    destruct (lookup_lt_is_Some_2 (lat t) i) as [a Ha]; [lia |]. rewrite Ha.
    assert (Hrest : forall acc',
               match foldM (synthetic_point t) acc' (seq (S i) n) with
               | inr _ =>
                   (Float64.isnan a = false -> (i < length (lon t))%nat) ->
                   forall (j : nat) (a' : spec_float),
                     (i <= j)%nat -> lat t !! j = Some a' -> Float64.isnan a' = false ->
                     (j < length (lon t))%nat
               | inl e =>
                   exists (j : nat) (a' : spec_float),
                     lat t !! j = Some a' /\ Float64.isnan a' = false /\
                     (length (lon t) <= j)%nat /\ e = out_of_bounds j (length (lon t))
               end).
    { intros acc'. specialize (IH (S i) acc' ltac:(lia)).
      destruct (foldM (synthetic_point t) acc' (seq (S i) n)); [exact IH |].
      intros Hi j a' Hj Ha' Hn. destruct (decide (j = i)) as [-> | Hne].
      - rewrite Ha in Ha'. injection Ha' as <-. by apply Hi.
      - apply (IH j a'); [lia | done | done]. }
    destruct (Float64.isnan a) eqn:Na.
    + specialize (Hrest acc). destruct (foldM _ acc _); [exact Hrest |].
      apply Hrest. discriminate.
    + destruct (lon t !! i) as [o|] eqn:Ho.
      * apply lookup_lt_Some in Ho.
        destruct (Float64.isnan o);
          [specialize (Hrest acc) | specialize (Hrest (acc ++ [coordinate o a]))];
          (destruct (foldM _ _ _); [exact Hrest | by apply Hrest]).
      * apply lookup_ge_None in Ho. exists i, a. done.
Qed.

Lemma synthetic_points_outcome (t : track) :
  match synthetic_points t with
  | inr coordinates => coordinates = valid_coordinates t /\ longitudes_cover t
  | inl e =>
      ~ longitudes_cover t /\
      exists (i : nat) (a : spec_float),
        lat t !! i = Some a /\ Float64.isnan a = false /\
        (length (lon t) <= i)%nat /\ e = out_of_bounds i (length (lon t))
  end.
Proof.
  pose proof (synthetic_points_outcome_from t (length (lat t)) 0 [] eq_refl) as H.
  unfold synthetic_points.
  destruct (foldM (synthetic_point t) [] (seq 0 (length (lat t)))) as [e|cs] eqn:Hrun.
  - split; [| exact H]. destruct H as (i & a & Ha & Hn & Hi & _).
    intros Hcover. specialize (Hcover i a Ha Hn). lia.
  - split; [by apply synthetic_points_valid |].
    intros i a. apply H. lia.
Qed.

(** X5. The loop that collects the coordinates of a track (lines 198-200)
    returns the [[lon, lat]] pairs of the located points exactly when every
    point with a non-NaN latitude has an entry in the longitude array;
    otherwise it raises numpy's IndexError, for a point with a non-NaN
    latitude that the longitude array does not reach. *)
Theorem track_points_outcome (t : track) :
  (longitudes_cover t <-> synthetic_points t = inr (valid_coordinates t)) /\
  (forall e : exn,
     synthetic_points t = inl e ->
     exn_class e = "IndexError" /\
     exists (i : nat) (a : spec_float),
       lat t !! i = Some a /\ Float64.isnan a = false /\
       (length (lon t) <= i)%nat /\ e = out_of_bounds i (length (lon t))).
Proof.
  pose proof (synthetic_points_outcome t) as H.
  destruct (synthetic_points t) as [e|cs].
  - destruct H as [Hno (i & a & Ha & Hn & Hi & ->)]. split; [by split |].
    intros e' [= <-]. split; [done |]. by exists i, a.
  - destruct H as [-> Hcover]. split; [by split | done].
Qed.

Lemma track_points_outcome_witness :
  synthetic_points Sample.ragged_storm = inl (out_of_bounds 1 1) /\
  exn_str (out_of_bounds 1 1) = "index 1 is out of bounds for axis 0 with size 1" /\
  exn_class (out_of_bounds 1 1) = "IndexError".
Proof.
  split; [reflexivity |]. split; [reflexivity |].
  exact (proj1 (proj2 (track_points_outcome Sample.ragged_storm)
                  (out_of_bounds 1 1) eq_refl)).
Defined.

Lemma synthetic_track_ok (sc : json) (acc : list json) (i : nat) (t : track) :
  (exists fs, synthetic_track sc acc (i, t) = inr fs) <-> scannable t.
Proof.
  unfold synthetic_track, scannable.
  destruct (length (lat t) <? 3)%nat eqn:Hshort.
  - apply Nat.ltb_lt in Hshort. split; [by left | eauto].
  - apply Nat.ltb_ge in Hshort.
    pose proof (synthetic_points_outcome t) as H.
    destruct (synthetic_points t) as [e|cs]; unfold_result.
    + destruct H as [Hno _]. split; [by intros [fs ?] | intros [? | ?]; [lia | done]].
    + destruct H as [_ Hcover]. split; [by right |].
      intros _. destruct (3 <=? length cs)%nat; eauto.
Qed.

Lemma synthetic_tracks_ok (sc : json) (its : list (nat * track)) (acc : list json) :
  (exists fs, foldM (synthetic_track sc) acc its = inr fs) <->
  Forall (fun it : nat * track => scannable it.2) its.
Proof.
  revert acc. induction its as [|[i t] its IH]; intros acc.
  - split; [intros _; constructor | intros _; by exists acc].
  - rewrite foldM_cons, Forall_cons. change ((i, t).2) with t.
    rewrite <- (synthetic_track_ok sc acc i t).
    destruct (synthetic_track sc acc (i, t)) as [e|acc1].
    + split; [by intros [fs ?] | by intros [[fs ?] _]].
    + rewrite (IH acc1). split; [eauto | tauto].
Qed.

Lemma Forall_enumerate_from {A : Type} (P : A -> Prop) (i : nat) (xs : list A) :
  Forall (fun it : nat * A => P it.2) (enumerate_from i xs) <-> Forall P xs.
Proof.
  revert i. induction xs as [|x xs IH]; intros i; simpl.
  - split; constructor.
  - rewrite !Forall_cons. simpl. by rewrite IH.
Qed.

(** X6. A synthetic-tracks request is answered 200 exactly when its body is
    a JSON object, the library calls succeed, and each of the first 50
    synthetic tracks either has fewer than three latitudes or has a
    longitude for every non-NaN latitude; the response then shows the
    features of the kept tracks among these.  In every other case the
    answer is an error with status 500. *)
Theorem synthetic_success_criterion
    (py : python) (lib : climada) (req : request) (s : state) :
  let r := (generate_synthetic_tracks py lib req s).1 in
  (status r = 200 <->
   exists scenario synth,
     requested_scenario req = inr scenario /\
     synthetic_library_tracks py lib req = inr synth /\
     Forall scannable (take 50 synth)) /\
  (status r = 200 \/ status r = 500).
Proof.
  intros r. subst r. rewrite synthetic_run.
  unfold requested_scenario, synthetic_library_tracks.
  destruct (json_body req) as [e|data].
  { split; [split; [done | by intros (? & ? & ? & _)] | by right]. }
  destruct data;
    try (split; [split; [done | by intros (? & ? & ? & _)] | by right]).
  unfold dict_get. unfold_result. cbv zeta.
  destruct (from_ibtracs_netcdf lib _ _) as [e|ts].
  { split; [split; [done | by intros (? & ? & _ & ? & _)] | by right]. }
  destruct (int_truediv py _ _) as [e|nb].
  { split; [split; [done | by intros (? & ? & _ & ? & _)] | by right]. }
  destruct (calc_perturbed_trajectories lib _ _) as [e|synth].
  { split; [split; [done | by intros (? & ? & _ & ? & _)] | by right]. }
  pose proof (synthetic_tracks_ok
                (default (JStr "historical") (assoc "scenario" fields))
                (enumerate_from 0 (take (Nat.min 50 (length synth)) synth)) []) as Hok.
  rewrite Forall_enumerate_from in Hok.
  destruct (foldM _ _ _) as [e|fs]; rewrite take_min_length in Hok.
  - split; [| by right]. split; [done |].
    intros (sc & synth' & _ & [= <-] & Hall).
    apply Hok in Hall as [fs ?]. done.
  - split; [| by left]. split; [| done].
    intros _. eexists _, synth. split; [done |]. split; [done |].
    apply Hok. eauto.
Qed.

Lemma synthetic_success_criterion_witness :
  let good := Sample.library [] [Sample.storm; Sample.short_storm] in
  let bad := Sample.library [] [Sample.storm; Sample.ragged_storm] in
  let req := Sample.post (JObj []) in
  (status (generate_synthetic_tracks Sample.py good req initial_state).1 = 200 /\
   status (generate_synthetic_tracks Sample.py bad req initial_state).1 = 500) /\
  ~ Forall scannable (take 50 [Sample.storm; Sample.ragged_storm]).
Proof.
  intros good bad req. split; [by split |]. intros Hall.
  assert (H : status (generate_synthetic_tracks Sample.py bad req initial_state).1 = 200).
  { apply (proj1 (synthetic_success_criterion Sample.py bad req initial_state)).
    by exists (JStr "historical"), [Sample.storm; Sample.ragged_storm]. }
  discriminate H.
Defined.

(** ** The category of a storm *)

Lemma historical_point_category (t : track) (i : nat) (acc acc' : list json * list Z) :
  historical_point t acc i = inr acc' ->
  acc'.2 = acc.2 ++ (if located t i then [point_category (wind_at t i)] else []).
Proof.
  unfold historical_point, located, wind_at, getitem.
  destruct (lat t !! i) as [a|]; unfold_result; [| done].
  destruct (Float64.isnan a); cbn [negb andb].
  { intros [= <-]. destruct (lon t !! i); by rewrite app_nil_r. }
  destruct (lon t !! i) as [o|]; [| done].
  destruct (Float64.isnan o); cbn [negb andb]; [intros [= <-]; by rewrite app_nil_r |].
  destruct (max_sustained_wind t) as [winds|].
  - cbv [option_bind]. destruct (winds !! i) as [w|]; [| done]. by intros [= <-].
  - by intros [= <-].
Qed.

Lemma historical_points_categories_from (t : track) (l : list nat)
    (acc acc' : list json * list Z) :
  foldM (historical_point t) acc l = inr acc' ->
  acc'.2 = acc.2 ++ map (fun i => point_category (wind_at t i)) (List.filter (located t) l).
Proof.
  revert acc. induction l as [|i l IH]; intros acc.
  - intros [= <-]. by rewrite app_nil_r.
  - rewrite foldM_cons.
    destruct (historical_point t acc i) as [e|acc1] eqn:Hstep; [done |].
    apply historical_point_category in Hstep.
    intros H. apply IH in H. rewrite H, Hstep, <- app_assoc. simpl.
    by destruct (located t i).
Qed.

Lemma historical_points_categories (t : track) (cs : list json) (cats : list Z) :
  historical_points t = inr (cs, cats) ->
  cs = valid_coordinates t /\ cats = point_categories t /\ length cats = length cs.
Proof.
  intros H. pose proof (historical_points_valid _ _ _ H) as [-> Hlen].
  by apply historical_points_categories_from in H.
Qed.

Lemma point_category_range (wind : option spec_float) : 0 <= point_category wind <= 5.
Proof.
  destruct wind as [w|]; simpl; [| lia].
  destruct (Float64.isnan w); simpl; [lia | apply saffir_simpson_range].
Qed.

Lemma fold_max_spec (cs : list Z) (c : Z) :
  let m := fold_left Z.max cs c in
  c <= m /\ Forall (fun k => k <= m) cs /\ (m = c \/ In m cs).
Proof.
  revert c. induction cs as [|k cs IH]; intros c; simpl.
  - split; [lia |]. split; [constructor | by left].
  - destruct (IH (Z.max c k)) as (H1 & H2 & H3).
    split; [lia |]. split; [constructor; [lia | done] |].
    destruct H3 as [H3 | H3]; [| by right; right].
    rewrite H3. destruct (Z.max_spec c k) as [[_ ->] | [_ ->]]; [right; by left | by left].
Qed.

Lemma max_category_spec (cats : list Z) :
  cats <> [] ->
  Forall (fun k => k <= max_category cats) cats /\ In (max_category cats) cats.
Proof.
  destruct cats as [|c cs]; [done |]. intros _. simpl.
  destruct (fold_max_spec cs c) as (H1 & H2 & H3).
  split; [by constructor |]. destruct H3 as [-> | H3]; [by left | by right].
Qed.

Lemma historical_feature_category (py : python) (b : string) (y : Z) (t : track)
    (cs : list json) (cats : list Z) (f : json) :
  historical_feature py b y t cs cats = inr f ->
  property_of "category" f = Some (JInt (max_category cats)).
Proof.
  unfold historical_feature.
  destruct (name t); simpl;
    destruct (track_sid t); simpl; try done;
    destruct (max_sustained_wind t); simpl; try done;
    try (destruct (np_nanmax py _); simpl; try done);
    by intros [= <-].
Qed.

Lemma historical_track_category (py : python) (b : string) (y : Z) (acc : list json)
    (t : track) (fs : list json) :
  historical_track py b y acc t = inr fs ->
  if kept t
  then exists f,
         historical_feature py b y t (valid_coordinates t) (point_categories t) = inr f /\
         point_categories t <> [] /\
         fs = acc ++ [f]
  else fs = acc.
Proof.
  unfold historical_track.
  destruct (length (lat t) <? 3)%nat eqn:Hshort.
  - intros [= <-]. by rewrite (short_track_not_kept _ Hshort).
  - destruct (historical_points t) as [e|[cs cats]] eqn:Hpts; unfold_result; [done |].
    apply historical_points_categories in Hpts as (-> & -> & Hlen). unfold kept.
    destruct (3 <=? length (valid_coordinates t))%nat eqn:H3; [| by intros [= <-]].
    destruct (historical_feature py b y t (valid_coordinates t) (point_categories t))
      as [e|f] eqn:Hf; [done |].
    intros [= <-]. exists f. split; [done |]. split; [| done].
    apply Nat.leb_le in H3. intros Hnil. rewrite Hnil in Hlen. simpl in Hlen. lia.
Qed.

Lemma historical_tracks_category (py : python) (b : string) (y : Z) (ts : list track)
    (acc fs : list json) :
  foldM (historical_track py b y) acc ts = inr fs ->
  exists fs',
    fs = acc ++ fs' /\
    Forall2 (fun f t =>
               point_categories t <> [] /\
               property_of "category" f = Some (JInt (max_category (point_categories t))))
            fs' (List.filter kept ts).
Proof.
  revert acc. induction ts as [|t ts IH]; intros acc.
  - intros [= <-]. exists []. by rewrite app_nil_r.
  - rewrite foldM_cons.
    destruct (historical_track py b y acc t) as [e|acc1] eqn:Hstep; [done |].
    apply historical_track_category in Hstep.
    intros H. apply IH in H as (fs' & -> & Hall). simpl.
    destruct (kept t).
    + destruct Hstep as (f & Hf & Hne & ->). exists (f :: fs').
      rewrite <- app_assoc. split; [done |]. constructor; [| done].
      split; [done |]. exact (historical_feature_category py b y t _ _ f Hf).
    + subst acc1. eauto.
Qed.

(** X7. The 'category' of a historical feature is the highest Saffir-Simpson
    category reached at a located point of its track (a point whose
    latitude and longitude are both non-NaN): it is the category of one of
    these points, no located point has a higher one, and it lies between 0
    and 5.  Points without a position do not count, whatever their wind. *)
Theorem feature_category_is_maximum
    (py : python) (lib : climada) (req : request) (s s' : state)
    (b : string) (y1 y2 : Z) (ts : list track) (r : response) :
  historical_params py req = inr (b, y1, y2) ->
  cache s !! cache_key b y1 y2 = None ->
  from_ibtracs_netcdf lib (y1, y2) (JStr b) = inr ts ->
  get_historical_tracks py lib req s = (r, s') ->
  status r = 200 ->
  Forall2 (fun f t =>
             exists c,
               property_of "category" f = Some (JInt c) /\
               0 <= c <= 5 /\
               In c (point_categories t) /\
               Forall (fun k => k <= c) (point_categories t))
          (features_of (body r)) (List.filter kept ts).
Proof.
  intros Hp Hc Hlib Hrun Hok.
  rewrite (historical_miss _ _ _ _ _ _ _ Hp Hc), Hlib in Hrun. cbn zeta in Hrun.
  destruct (foldM (historical_track py b y1) [] ts) as [e|fs] eqn:Hfold.
  { injection Hrun as <- <-. discriminate Hok. }
  injection Hrun as <- <-.
  apply historical_tracks_category in Hfold as (fs' & -> & Hall). simpl.
  change (features_of (historical_collection b y1 y2 fs')) with fs'.
  eapply Forall2_impl; [exact Hall |].
  intros f t [Hne Hcat]. exists (max_category (point_categories t)).
  destruct (max_category_spec _ Hne) as [Hmax Hin].
  split; [exact Hcat |]. split; [| by split].
  assert (Hrange : Forall (fun c => 0 <= c <= 5) (point_categories t)).
  { unfold point_categories. apply Forall_map, Forall_forall.
    intros i _. apply point_category_range. }
  rewrite Forall_forall in Hrange. apply Hrange. by apply list_elem_of_In.
Qed.

Lemma feature_category_is_maximum_witness :
  let lib := Sample.library [Sample.short_storm; Sample.storm] [] in
  let out := get_historical_tracks Sample.py lib (Sample.get []) initial_state in
  (status out.1 = 200 /\ point_categories Sample.storm = [1; 3; 5]) /\
  Forall2 (fun f t =>
             exists c,
               property_of "category" f = Some (JInt c) /\
               0 <= c <= 5 /\
               In c (point_categories t) /\
               Forall (fun k => k <= c) (point_categories t))
          (features_of (body out.1)) [Sample.storm].
Proof.
  intros lib out. split; [by split |].
  exact (feature_category_is_maximum Sample.py lib (Sample.get []) initial_state out.2
           "NA" 2010 2020 [Sample.short_storm; Sample.storm] out.1
           eq_refl eq_refl eq_refl eq_refl eq_refl).
Defined.

(** ** The names of the synthetic features *)

Lemma synthetic_name_inj (i j : nat) :
  property_of "name" (synthetic_feature JNull i []) =
  property_of "name" (synthetic_feature JNull j []) -> i = j.
Proof.
  cbn. intros [= H]. by apply Nat2Z.inj, str_of_Z_inj.
Qed.

Lemma enumerate_from_elem (i : nat) (ts : list track) (it : nat * track) :
  In it (enumerate_from i ts) ->
  (i <= it.1)%nat /\ ts !! (it.1 - i)%nat = Some it.2.
Proof.
  revert i. induction ts as [|t ts IH]; intros i; simpl; [done |].
  intros [<- | H]; simpl.
  - rewrite Nat.sub_diag. split; [lia | done].
  - apply IH in H as [H1 H2]. split; [lia |].
    replace (it.1 - i)%nat with (S (it.1 - S i)) by lia. done.
Qed.

Lemma shown_names_fresh (P : nat * track -> bool) (sc : json) (i : nat) (ts : list track) :
  NoDup (map (fun it : nat * track =>
                property_of "name" (synthetic_feature sc it.1 (valid_coordinates it.2)))
             (List.filter P (enumerate_from i ts))).
Proof.
  revert i. induction ts as [|t ts IH]; intros i; simpl; [constructor |].
  destruct (P (i, t)); [| apply IH]. simpl.
  apply NoDup_cons. split; [| apply IH].
  intros Hin. apply list_elem_of_In, in_map_iff in Hin as (it & Hname & Hit).
  apply filter_In in Hit as [Hit _]. apply enumerate_from_elem in Hit as [Hle _].
  assert (it.1 = i) by (apply synthetic_name_inj; exact Hname). lia.
Qed.

(** X9. The features of a synthetic-tracks response have pairwise distinct
    names, and the name of each is 'Synthetic_' followed by the index of
    its track in the library's output (below 50), not its rank among the
    features shown: the feature named 'Synthetic_i' holds the located
    points of the library's track [i], which is a kept track. *)
Theorem synthetic_names_identify_tracks
    (py : python) (lib : climada) (req : request) (s : state) :
  let r := (generate_synthetic_tracks py lib req s).1 in
  status r = 200 ->
  exists synth,
    synthetic_library_tracks py lib req = inr synth /\
    NoDup (map (property_of "name") (features_of (body r))) /\
    Forall (fun f =>
              exists (i : nat) (t : track),
                (i < 50)%nat /\ synth !! i = Some t /\ kept t = true /\
                property_of "name" f
                = Some (JStr ("Synthetic_" +:+ str_of_Z (Z.of_nat i))) /\
                json_field "geometry" f = Some (line_string (valid_coordinates t)))
           (features_of (body r)).
Proof.
  intros r Hok. subst r.
  destruct (synthetic_outcome py lib req s) as [[e He] | (sc & synth & _ & Hlib & Hr)].
  { rewrite He in Hok. discriminate Hok. }
  exists synth. split; [exact Hlib |].
  rewrite Hr. cbn [body ok]. rewrite features_of_synthetic. unfold shown_features.
  rewrite take_min_length. split.
  - rewrite map_map. apply shown_names_fresh.
  - apply Forall_forall. intros f Hf.
    apply list_elem_of_In, in_map_iff in Hf as ([i t] & <- & Hit).
    apply filter_In in Hit as [Hit Hkept].
    apply enumerate_from_elem in Hit as [_ Hlook]. simpl in *.
    rewrite Nat.sub_0_r in Hlook. apply lookup_take_Some in Hlook as [Hlook Hi].
    by exists i, t.
Qed.

Lemma synthetic_names_identify_tracks_witness :
  let lib := Sample.library [] [Sample.short_storm; Sample.storm; Sample.storm] in
  let r := (generate_synthetic_tracks Sample.py lib (Sample.post (JObj [])) initial_state).1 in
  (status r = 200 /\
   map (property_of "name") (features_of (body r))
   = [Some (JStr "Synthetic_1"); Some (JStr "Synthetic_2")]) /\
  NoDup (map (property_of "name") (features_of (body r))).
Proof.
  intros lib r.
  assert (Hok : status r = 200) by reflexivity.
  split; [split; [exact Hok | by vm_compute] |].
  destruct (synthetic_names_identify_tracks Sample.py lib (Sample.post (JObj []))
              initial_state Hok) as (synth & _ & Hnodup & _).
  exact Hnodup.
Defined.

(** ** Splitting the location *)

Lemma split_on_nonempty (sep : ascii) (s : string) : split_on sep s <> [].
Proof.
  destruct s as [|c s]; simpl; [done |].
  destruct (Ascii.eqb c sep); [done |]. by destruct (split_on sep s).
Qed.

Lemma split_on_join (sep : ascii) (s : string) :
  join sep (split_on sep s) = s /\
  Forall (fun p => mentions sep p = false) (split_on sep s).
Proof.
  induction s as [|c s [IHj IHm]]; simpl; [by repeat constructor |].
  pose proof (split_on_nonempty sep s) as Hne.
  destruct (Ascii.eqb c sep) eqn:Hc.
  - apply Ascii.eqb_eq in Hc as ->. split.
    + destruct (split_on sep s) as [|p ps] eqn:Hs; [done |].
      change (join sep ("" :: p :: ps)) with (String sep (join sep (p :: ps))).
      by rewrite IHj.
    + by constructor.
  - destruct (split_on sep s) as [|p ps]; [done |]. split.
    + rewrite <- IHj. by destruct ps.
    + apply Forall_cons in IHm as [Hp Hps]. constructor; [| done].
      simpl. by rewrite Hc, Hp.
Qed.

Lemma split_on_plain (sep : ascii) (s : string) :
  mentions sep s = false -> split_on sep s = [s].
Proof.
  induction s as [|c s IH]; simpl; [done |].
  intros [Hc Hs]%orb_false_elim. rewrite Hc, (IH Hs). done.
Qed.

Lemma split_on_cut (sep : ascii) (a r : string) :
  mentions sep a = false ->
  split_on sep (a +:+ String sep r) = a :: split_on sep r.
Proof.
  induction a as [|c a IH]; simpl.
  - intros _. by rewrite Ascii.eqb_refl.
  - intros [Hc Ha]%orb_false_elim. by rewrite Hc, (IH Ha).
Qed.

(** X10. A return-periods request is answered 200 exactly when its location
    (the default when absent) is two comma-free texts joined by one comma,
    each of which [float] accepts; a location with no comma, with two or
    more commas, or with a part that [float] rejects is answered with an
    error and status 500. *)
Theorem return_periods_success_criterion (py : python) (req : request) (s : state) :
  let location := args_get req "location" "25.7617,-80.1918" in
  let r := (get_return_periods py req s).1 in
  (status r = 200 <->
   exists a b lat_v lon_v,
     location = a +:+ String "," b /\
     mentions "," a = false /\ mentions "," b = false /\
     py_float py a = inr lat_v /\ py_float py b = inr lon_v) /\
  (status r = 200 \/ status r = 500).
Proof.
  intros location r. subst r.
  unfold get_return_periods, get_return_periods_body. unfold_M.
  fold location.
  destruct (split_on_join "," location) as [Hjoin Hparts].
  destruct (unpack_lat_lon py (split_on "," location)) as [e|[lat_v lon_v]] eqn:Hun.
  - split; [| by right]. split; [done |].
    intros (a & b & la & lo & Hloc & Ha & Hb & Hfa & Hfb).
    rewrite Hloc, (split_on_cut _ _ _ Ha), (split_on_plain _ _ Hb) in Hun.
    unfold unpack_lat_lon in Hun. rewrite Hfa, Hfb in Hun. done.
  - split; [| by left]. split; [| done]. intros _.
    unfold unpack_lat_lon in Hun.
    destruct (split_on "," location) as [|a [|b [|c rest]]]; try done.
    + destruct (py_float py a); done.
    + destruct (py_float py a) as [?|la] eqn:Hfa; [done |].
      destruct (py_float py b) as [?|lo] eqn:Hfb; [done |].
      apply Forall_cons in Hparts as [Ha Hparts].
      apply Forall_cons in Hparts as [Hb _].
      exists a, b, la, lo. simpl in Hjoin. by rewrite Hjoin.
    + destruct (py_float py a); [done |].
      destruct (py_float py b); [done |].
      destruct (py_float py c); done.
Qed.

Lemma return_periods_success_criterion_witness :
  status (get_return_periods Sample.py (Sample.get [("location", "18")]) initial_state).1
  = 500 /\
  status (get_return_periods Sample.py (Sample.get [("location", "18,-66")])
            initial_state).1 = 200 /\
  status (get_return_periods Sample.py (Sample.get [("location", "18,-66,5")])
            initial_state).1 = 500.
Proof.
  split; [reflexivity |]. split; [| reflexivity].
  apply (proj1 (return_periods_success_criterion Sample.py
                  (Sample.get [("location", "18,-66")]) initial_state)).
  by exists "18"%string, "-66"%string, (Float64.of_Z 18), (Float64.of_Z (-66)).
Defined.

(** ** The impact handler *)

Lemma impact_run (lib : climada) (req : request) (s : state) :
  calculate_impact lib req s =
    match json_body req with
    | inl e => (error_response e, s)
    | inr data =>
    match data with
    | JObj fields =>
      let country := default (JStr "USA") (assoc "country" fields) in
      let scenario := default (JStr "historical") (assoc "scenario" fields) in
      let s1 := State (cache s) (calls s ++ [CallLitPop country]) in
      match litpop_from_countries lib country with
      | inl e => (error_response e, s1)
      | inr exposure =>
      let s2 := State (cache s) (calls s1 ++ [CallImpactFuncSet]) in
      match impact_func_set lib with
      | inl e => (error_response e, s2)
      | inr _ =>
          (ok (JObj [("country", country);
                     ("scenario", scenario);
                     ("exposure",
                      JObj [("total_value", JFloat (total_value exposure));
                            ("n_assets", JInt (n_assets exposure));
                            ("currency", JStr "USD")]);
                     ("message", JStr "Full impact calculation requires hazard data")]),
           s2)
      end end
    | _ => (error_response
              (Exn "AttributeError"
                 ("'" +:+ type_name data +:+ "' object has no attribute 'get'")), s)
    end
    end.
Proof.
  unfold calculate_impact, calculate_impact_body. unfold_M.
  destruct (json_body req) as [e|data]; [reflexivity |].
  destruct data; try reflexivity.
  unfold dict_get. unfold_result. cbv zeta.
  destruct (litpop_from_countries lib _); [reflexivity |].
  cbn [cache calls].
  by destruct (impact_func_set lib) as [?|[]].
Qed.

(** X11. The impact route computes no impact: the scenario of the request
    reaches neither the library nor the exposure figures.  Two requests
    that differ only in 'scenario', served by the same library from the
    same state, make the same library calls and get the same status, the
    same 'country', 'exposure' and 'message', or the same error; and the
    route never changes the cache. *)
Theorem impact_ignores_scenario (lib : climada) (req1 req2 : request) (s : state) :
  differ_only_in_scenario req1 req2 ->
  let out1 := calculate_impact lib req1 s in
  let out2 := calculate_impact lib req2 s in
  out1.2 = out2.2 /\
  cache out1.2 = cache s /\
  status out1.1 = status out2.1 /\
  json_field "country" (body out1.1) = json_field "country" (body out2.1) /\
  json_field "exposure" (body out1.1) = json_field "exposure" (body out2.1) /\
  json_field "message" (body out1.1) = json_field "message" (body out2.1) /\
  json_field "error" (body out1.1) = json_field "error" (body out2.1).
Proof.
  intros [_ Hbody] out1 out2. subst out1 out2. rewrite !impact_run.
  destruct (json_body req1) as [e1|data1], (json_body req2) as [e2|data2].
  - injection Hbody as <-. by repeat split.
  - destruct data2; discriminate Hbody.
  - destruct data1; discriminate Hbody.
  - destruct data1 as [| | | | | |fields1];
      try (injection Hbody as <-; by repeat split).
    destruct data2 as [| | | | | |fields2]; try discriminate Hbody.
    cbv zeta. rewrite <- (Hbody "country") by discriminate.
    destruct (litpop_from_countries lib _) as [e|exposure]; [by repeat split |].
    destruct (impact_func_set lib) as [e|?]; by repeat split.
Qed.

Lemma impact_ignores_scenario_witness :
  let lib := Sample.library [] [] in
  let req1 := Sample.post (JObj [("country", JStr "CUB"); ("scenario", JStr "rcp85")]) in
  let req2 := Sample.post (JObj [("country", JStr "CUB")]) in
  let out1 := calculate_impact lib req1 initial_state in
  let out2 := calculate_impact lib req2 initial_state in
  (status out1.1 = 200 /\ out1.1 <> out2.1 /\
   calls out1.2 = [CallLitPop (JStr "CUB"); CallImpactFuncSet]) /\
  json_field "exposure" (body out1.1) = json_field "exposure" (body out2.1).
Proof.
  intros lib req1 req2 out1 out2.
  split; [repeat split; by vm_compute |].
  refine (proj1 (proj2 (proj2 (proj2 (proj2
            (impact_ignores_scenario lib req1 req2 initial_state _)))))).
  split; [reflexivity |]. simpl. intros k Hk.
  destruct (String.eqb_spec k "country"); [done |].
  by destruct (String.eqb_spec k "scenario").
Defined.

(** ** When the historical translation raises *)

Lemma historical_point_ok (t : track) (acc : list json * list Z) (i : nat) :
  (exists acc', historical_point t acc i = inr acc') <->
  (exists cs, synthetic_point t acc.1 i = inr cs) /\
  (forall winds, max_sustained_wind t = Some winds -> located t i = true ->
                 (i < length winds)%nat).
Proof.
  split.
  - intros [acc' H]. pose proof (historical_point_coordinates _ _ _ _ H) as [Hsp _].
    split; [eauto |]. intros winds Hw Hloc.
    revert H. unfold historical_point, located, getitem in *.
    destruct (lat t !! i) as [a|]; [| done]. unfold_result.
    destruct (lon t !! i) as [o|]; [| by destruct (Float64.isnan a)].
    destruct (Float64.isnan a); [done |]. destruct (Float64.isnan o); [done |].
    cbn [negb]. rewrite Hw.
    destruct (winds !! i) eqn:Hwi; [| done]. intros _. by apply lookup_lt_Some in Hwi.
  - intros [[cs Hsp] Hw]. revert Hsp Hw. unfold historical_point, synthetic_point, located, getitem.
    destruct (lat t !! i) as [a|]; [| done]. unfold_result.
    destruct (Float64.isnan a); cbn [negb andb]; [eauto |].
    destruct (lon t !! i) as [o|]; [| done].
    destruct (Float64.isnan o); cbn [negb andb]; [eauto |].
    intros _ Hw. destruct (max_sustained_wind t) as [winds|]; [| eauto].
    destruct (lookup_lt_is_Some_2 winds i) as [w Hwi]; [by apply Hw |].
    rewrite Hwi. eauto.
Qed.

Lemma historical_points_ok_from (t : track) (l : list nat) (acc : list json * list Z) :
  (exists acc', foldM (historical_point t) acc l = inr acc') <->
  (exists cs, foldM (synthetic_point t) acc.1 l = inr cs) /\
  (forall winds i, max_sustained_wind t = Some winds -> In i l -> located t i = true ->
                   (i < length winds)%nat).
Proof.
  revert acc. induction l as [|i l IH]; intros acc.
  - simpl. split; [intros _; split; [eauto | done] | eauto].
  - rewrite !foldM_cons.
    pose proof (historical_point_ok t acc i) as Hstep.
    destruct (historical_point t acc i) as [e|acc1] eqn:Hhp.
    + split; [by intros [? ?] |]. intros [[cs Hcs] Hw].
      destruct (synthetic_point t acc.1 i) as [?|cs1] eqn:Hsp; [done |].
      destruct (proj2 Hstep) as [? ?]; [| done].
      split; [eauto |]. intros winds Hwinds Hloc. apply (Hw winds i); [done | by left | done].
    + pose proof (historical_point_coordinates _ _ _ _ Hhp) as [Hsp _]. rewrite Hsp.
      rewrite (IH acc1). destruct (proj1 Hstep) as [_ Hwi]; [eauto |].
      split.
      * intros [Hcs Hw]. split; [done |]. intros winds j Hwinds [<- | Hj] Hloc;
          [by apply Hwi | by apply (Hw winds j)].
      * intros [Hcs Hw]. split; [done |]. intros winds j Hwinds Hj Hloc.
        apply (Hw winds j); [done | by right | done].
Qed.

Lemma historical_points_ok (t : track) :
  (exists out, historical_points t = inr out) <-> longitudes_cover t /\ winds_cover t.
Proof.
  unfold historical_points. rewrite historical_points_ok_from.
  pose proof (synthetic_points_outcome t) as Hout. unfold synthetic_points in Hout.
  change ((([] : list json), ([] : list Z)).1) with ([] : list json).
  split.
  - intros [[cs Hcs] Hw]. rewrite Hcs in Hout. destruct Hout as [_ Hcover].
    split; [done |]. intros winds i Hwinds Hloc. apply (Hw winds i); [done | | done].
    apply in_seq. unfold located in Hloc.
    destruct (lat t !! i) eqn:Hl; [| done]. apply lookup_lt_Some in Hl. lia.
  - intros [Hcover Hw].
    destruct (foldM (synthetic_point t) [] (seq 0 (length (lat t)))) as [e|cs].
    + by destruct Hout as [Hno _].
    + split; [eauto |]. intros winds i Hwinds _ Hloc. by apply (Hw winds i).
Qed.

Lemma historical_feature_ok (py : python) (b : string) (y : Z) (t : track)
    (cs : list json) (cats : list Z) :
  (exists f, historical_feature py b y t cs cats = inr f) <-> describable py t.
Proof.
  unfold historical_feature, describable, track_sid.
  destruct (sid t) as [sid_v|]; unfold_result.
  - destruct (max_sustained_wind t) as [winds|].
    + destruct (np_nanmax py winds) as [e|w] eqn:Hmax.
      * destruct (name t); split; try (by intros [? ?]);
          intros [_ H]; destruct (H winds eq_refl) as [w Hw]; congruence.
      * destruct (name t); (split; [intros _ | eauto]);
          (split; [eauto |]; intros ? [= <-]; eauto).
    + destruct (name t); (split; [intros _ | eauto]); (split; [eauto | done]).
  - destruct (name t); (split; [by intros [? ?] | by intros [[? ?] _]]).
Qed.

Lemma historical_track_ok (py : python) (b : string) (y : Z) (acc : list json) (t : track) :
  (exists fs, historical_track py b y acc t = inr fs) <-> readable py t.
Proof.
  unfold historical_track, readable.
  destruct (length (lat t) <? 3)%nat eqn:Hshort.
  - apply Nat.ltb_lt in Hshort. split; [by left | eauto].
  - apply Nat.ltb_ge in Hshort.
    pose proof (historical_points_ok t) as Hpts.
    destruct (historical_points t) as [e|[cs cats]] eqn:Hrun; unfold_result.
    + split; [by intros [? ?] |]. intros [? | (Hc & Hw & _)]; [lia |].
      destruct (proj2 Hpts) as [? ?]; done.
    + destruct (proj1 Hpts) as [Hc Hw]; [eauto |].
      apply historical_points_valid in Hrun as [-> _].
      pose proof (historical_feature_ok py b y t (valid_coordinates t) cats) as Hf.
      unfold kept. destruct (3 <=? length (valid_coordinates t))%nat.
      * destruct (historical_feature py b y t (valid_coordinates t) cats) as [e|f].
        -- split; [by intros [? ?] |]. intros [? | (_ & _ & Hd)]; [lia |].
           destruct (proj2 Hf (Hd eq_refl)) as [? ?]. done.
        -- split; [| eauto]. intros _. right. split; [done |]. split; [done |].
           intros _. apply Hf. eauto.
      * split; [| eauto]. intros _. right. by repeat split.
Qed.

Lemma historical_tracks_ok (py : python) (b : string) (y : Z) (ts : list track)
    (acc : list json) :
  (exists fs, foldM (historical_track py b y) acc ts = inr fs) <-> Forall (readable py) ts.
Proof.
  revert acc. induction ts as [|t ts IH]; intros acc.
  - split; [intros _; constructor | intros _; by exists acc].
  - rewrite foldM_cons, Forall_cons.
    rewrite <- (historical_track_ok py b y acc t).
    destruct (historical_track py b y acc t) as [e|acc1].
    + split; [by intros [fs ?] | by intros [[fs ?] _]].
    + rewrite (IH acc1). split; [eauto | tauto].
Qed.

(** X12. When the library has returned its tracks, a historical-tracks
    request for a missing key is answered 200 exactly when every track can
    be translated: the track has fewer than three latitudes (it is
    skipped), or its longitude array reaches every point with a non-NaN
    latitude, its wind array (if any) reaches every located point and, if
    the track is kept, it has an [sid] and [np.nanmax] reduces its wind
    array.  One track that cannot be translated fails the whole request
    with status 500, and nothing is cached. *)
Theorem historical_success_criterion
    (py : python) (lib : climada) (req : request) (s : state)
    (b : string) (y1 y2 : Z) (ts : list track) :
  historical_params py req = inr (b, y1, y2) ->
  cache s !! cache_key b y1 y2 = None ->
  from_ibtracs_netcdf lib (y1, y2) (JStr b) = inr ts ->
  let out := get_historical_tracks py lib req s in
  (status out.1 = 200 <-> Forall (readable py) ts) /\
  (status out.1 <> 200 -> status out.1 = 500 /\ cache out.2 = cache s).
Proof.
  intros Hp Hc Hlib out. subst out.
  rewrite (historical_miss _ _ _ _ _ _ _ Hp Hc), Hlib. cbn zeta.
  rewrite <- (historical_tracks_ok py b y1 ts []).
  destruct (foldM (historical_track py b y1) [] ts) as [e|fs].
  - split; [split; [done | by intros [? ?]] | done].
  - split; [split; [eauto | done] | done].
Qed.

Lemma historical_success_criterion_witness :
  let missing_sid := Track (lat Sample.storm) (lon Sample.storm) None None None None in
  let lib1 := Sample.library [Sample.short_storm; Sample.storm] [] in
  let lib2 := Sample.library [Sample.storm; missing_sid] [] in
  (status (get_historical_tracks Sample.py lib1 (Sample.get []) initial_state).1 = 200 /\
   status (get_historical_tracks Sample.py lib2 (Sample.get []) initial_state).1 = 500) /\
  Forall (readable Sample.py) [Sample.short_storm; Sample.storm] /\
  ~ Forall (readable Sample.py) [Sample.storm; missing_sid].
Proof.
  intros missing_sid lib1 lib2.
  assert (H1 : status (get_historical_tracks Sample.py lib1 (Sample.get []) initial_state).1
               = 200) by reflexivity.
  assert (H2 : status (get_historical_tracks Sample.py lib2 (Sample.get []) initial_state).1
               = 500) by reflexivity.
  split; [by split |]. split.
  - exact (proj1 (proj1 (historical_success_criterion Sample.py lib1 (Sample.get [])
                           initial_state "NA" 2010 2020 _ eq_refl eq_refl eq_refl)) H1).
  - intros Hall.
    apply (proj2 (proj1 (historical_success_criterion Sample.py lib2 (Sample.get [])
                           initial_state "NA" 2010 2020 _ eq_refl eq_refl eq_refl))) in Hall.
    rewrite H2 in Hall. discriminate Hall.
Defined.

(** ** The two shapes of a response *)

(** X13. In a server started with an empty cache, every response of every
    route has one of two shapes: status 200 with a body that has no 'error'
    member, or status 500 with a body whose only member is 'error', a
    string.  A client can tell failure from success by either sign. *)
Theorem error_member_iff_500
    (py : python) (earlier : list (endpoint * climada * request))
    (ep : endpoint) (lib : climada) (req : request) :
  let r := (serve py ep lib req (run py earlier initial_state)).1 in
  (status r = 200 /\ json_field "error" (body r) = None) \/
  (status r = 500 /\ exists msg, body r = JObj [("error", JStr msg)]).
Proof.
  intros r. subst r. set (s := run py earlier initial_state).
  assert (Herr : forall (e : exn) (s' : state),
             (status (error_response e, s').1 = 200 /\
              json_field "error" (body (error_response e, s').1) = None) \/
             (status (error_response e, s').1 = 500 /\
              exists msg, body (error_response e, s').1 = JObj [("error", JStr msg)]))
    by (intros e s'; right; split; [done | by eexists]).
  destruct ep; simpl.
  - unfold get_version, get_version_body. unfold_M.
    destruct (climada_version lib); [apply Herr | by left].
  - destruct (historical_params py req) as [e|[[b y1] y2]] eqn:Hp.
    { rewrite (historical_bad_params _ _ _ _ _ Hp). apply Herr. }
    destruct (cache s !! cache_key b y1 y2) as [v|] eqn:Hc.
    { rewrite (historical_hit _ _ _ _ _ _ _ _ Hp Hc).
      destruct (run_keyed py earlier _ initial_keyed _ _ Hc) as (? & ? & ? & fs & _ & ->).
      by left. }
    rewrite (historical_miss _ _ _ _ _ _ _ Hp Hc). cbn zeta.
    destruct (from_ibtracs_netcdf lib (y1, y2) (JStr b)) as [e|ts]; [apply Herr |].
    destruct (foldM (historical_track py b y1) [] ts); [apply Herr | by left].
  - destruct (synthetic_outcome py lib req s) as [[e ->] | (sc & synth & _ & _ & ->)];
      [apply (Herr e s) | by left].
  - unfold calculate_wind_field, calculate_wind_field_body. unfold_M.
    destruct (json_body req) as [e|data]; [apply Herr |].
    destruct data; try apply Herr. by left.
  - rewrite impact_run.
    destruct (json_body req) as [e|data]; [apply Herr |].
    destruct data; try apply Herr. cbv zeta.
    destruct (litpop_from_countries lib _); [apply Herr |].
    destruct (impact_func_set lib); [apply Herr | by left].
  - unfold get_return_periods, get_return_periods_body. unfold_M.
    destruct (unpack_lat_lon py _) as [e|[? ?]]; [apply Herr | by left].
Qed.

(** ** What a historical feature says of its track *)

Lemma historical_tracks_exact (py : python) (b : string) (y : Z) (ts : list track)
    (acc fs : list json) :
  foldM (historical_track py b y) acc ts = inr fs ->
  exists fs',
    fs = acc ++ fs' /\
    Forall2 (fun f t =>
               historical_feature py b y t (valid_coordinates t) (point_categories t)
               = inr f)
            fs' (List.filter kept ts).
Proof.
  revert acc. induction ts as [|t ts IH]; intros acc.
  - intros [= <-]. exists []. by rewrite app_nil_r.
  - rewrite foldM_cons.
    destruct (historical_track py b y acc t) as [e|acc1] eqn:Hstep; [done |].
    apply historical_track_category in Hstep.
    intros H. apply IH in H as (fs' & -> & Hall). simpl.
    destruct (kept t).
    + destruct Hstep as (f & Hf & _ & ->). exists (f :: fs').
      rewrite <- app_assoc. split; [done |]. by constructor.
    + subst acc1. eauto.
Qed.

Lemma windless_categories (t : track) :
  max_sustained_wind t = None -> max_category (point_categories t) = 0.
Proof.
  intros Hw. destruct (point_categories t) as [|c cs] eqn:Hcats; [done |].
  destruct (max_category_spec (c :: cs)) as [_ Hin]; [done |].
  rewrite <- Hcats in Hin |- *. unfold point_categories in Hin at 2.
  apply in_map_iff in Hin as (i & Hi & _).
  unfold wind_at in Hi. rewrite Hw in Hi. by rewrite <- Hi.
Qed.

Lemma historical_feature_properties (py : python) (b : string) (y : Z) (t : track)
    (cs : list json) (cats : list Z) (f : json) :
  historical_feature py b y t cs cats = inr f ->
  exists sid_v,
    sid t = Some sid_v /\
    property_of "sid" f = Some (JStr sid_v) /\
    property_of "name" f = Some (JStr (default ("Storm_" +:+ sid_v) (name t))) /\
    property_of "season" f = Some (JInt (default y (season t))) /\
    property_of "basin" f = Some (JStr b) /\
    property_of "category" f = Some (JInt (max_category cats)) /\
    (max_sustained_wind t = None -> property_of "max_wind" f = Some (JInt 0)).
Proof.
  unfold historical_feature, track_sid.
  destruct (sid t) as [sid_v|]; unfold_result; [| by destruct (name t)].
  destruct (max_sustained_wind t) as [winds|].
  - destruct (np_nanmax py winds); [by destruct (name t) |].
    destruct (name t); intros [= <-]; exists sid_v; by repeat split.
  - destruct (name t); intros [= <-]; exists sid_v; by repeat split.
Qed.

(** X14. Each feature of a computed historical-tracks response describes
    the library track it was made from: its 'sid' is the track's, its
    'name' is the track's name or, when the track has none, 'Storm_'
    followed by the sid, its 'season' is the track's season or, when the
    track has none, the year_min of the request, and its 'basin' is the
    basin of the request.  A track without wind data is reported with
    'max_wind' 0 and 'category' 0. *)
Theorem feature_describes_its_track
    (py : python) (lib : climada) (req : request) (s s' : state)
    (b : string) (y1 y2 : Z) (ts : list track) (r : response) :
  historical_params py req = inr (b, y1, y2) ->
  cache s !! cache_key b y1 y2 = None ->
  from_ibtracs_netcdf lib (y1, y2) (JStr b) = inr ts ->
  get_historical_tracks py lib req s = (r, s') ->
  status r = 200 ->
  Forall2 (fun f t =>
             exists sid_v,
               sid t = Some sid_v /\
               property_of "sid" f = Some (JStr sid_v) /\
               property_of "name" f = Some (JStr (default ("Storm_" +:+ sid_v) (name t))) /\
               property_of "season" f = Some (JInt (default y1 (season t))) /\
               property_of "basin" f = Some (JStr b) /\
               (max_sustained_wind t = None ->
                property_of "max_wind" f = Some (JInt 0) /\
                property_of "category" f = Some (JInt 0)))
          (features_of (body r)) (List.filter kept ts).
Proof.
  intros Hp Hc Hlib Hrun Hok.
  rewrite (historical_miss _ _ _ _ _ _ _ Hp Hc), Hlib in Hrun. cbn zeta in Hrun.
  destruct (foldM (historical_track py b y1) [] ts) as [e|fs] eqn:Hfold.
  { injection Hrun as <- <-. discriminate Hok. }
  injection Hrun as <- <-.
  apply historical_tracks_exact in Hfold as (fs' & -> & Hall). simpl.
  change (features_of (historical_collection b y1 y2 fs')) with fs'.
  eapply Forall2_impl; [exact Hall |].
  intros f t Hf.
  apply historical_feature_properties in Hf
    as (sid_v & Hsid & H1 & H2 & H3 & H4 & H5 & H6).
  exists sid_v. repeat split; try done.
  - by apply H6.
  - rewrite H5. by rewrite windless_categories.
Qed.

Lemma feature_describes_its_track_witness :
  let anonymous := Track (lat Sample.storm) (lon Sample.storm) None None (Some "X1") None in
  let lib := Sample.library [anonymous] [] in
  let req := Sample.get [("year_min", "1999")] in
  let out := get_historical_tracks Sample.py lib req initial_state in
  status out.1 = 200 /\
  map (property_of "name") (features_of (body out.1)) = [Some (JStr "Storm_X1")] /\
  map (property_of "season") (features_of (body out.1)) = [Some (JInt 1999)] /\
  map (property_of "category") (features_of (body out.1)) = [Some (JInt 0)].
Proof.
  intros anonymous lib req out.
  assert (Hok : status out.1 = 200) by reflexivity.
  pose proof (feature_describes_its_track Sample.py lib req initial_state out.2
                "NA" 1999 2020 [anonymous] out.1 eq_refl eq_refl eq_refl eq_refl Hok) as H.
  change (List.filter kept [anonymous]) with [anonymous] in H.
  destruct (features_of (body out.1)) as [|f [|f' fs]] eqn:Hfs;
    [by apply Forall2_nil_cons_inv in H | | ].
  - apply Forall2_cons_1 in H as [(sid_v & Hsid & _ & Hname & Hseason & _ & Hwind) _].
    injection Hsid as <-. destruct (Hwind eq_refl) as [_ Hcat].
    split; [exact Hok |]. simpl. by rewrite Hname, Hseason, Hcat.
  - apply Forall2_cons_1 in H as [_ H]. by apply Forall2_cons_nil_inv in H.
Defined.

(* ===================================================================== *)
(** * The responses as a client reads them *)
(* ===================================================================== *)

(** ** Reading the lines of a translation *)

Lemma read_positions (lats lons : list spec_float) :
  mapM read_position (positions lats lons)
  = Some (map (fun p : spec_float * spec_float => (p.2, p.1))
              (List.filter has_position (zip lats lons))).
Proof.
  unfold positions.
  induction (List.filter has_position (zip lats lons)) as [|[a o] l IH]; [done |].
  cbn. cbn in IH. by rewrite IH.
Qed.

Lemma read_track_geometry (t : track) :
  (Some (line_string (valid_coordinates t)) ≫= read_line_string) = Some (track_line t).
Proof. apply read_positions. Qed.

Lemma kept_drawn (t : track) : kept t = drawn t.
Proof.
  unfold kept, drawn, valid_coordinates, positions, track_line.
  by rewrite !length_map.
Qed.

Lemma filter_kept_drawn (ts : list track) : List.filter kept ts = List.filter drawn ts.
Proof. apply List.filter_ext. intros t. apply kept_drawn. Qed.

Lemma lines_of_geometries (b : json) (ts : list track) :
  geometries_of b = track_geometries ts ->
  map feature_line (features_of b)
  = map (fun t => Some (track_line t)) (List.filter drawn ts).
Proof.
  unfold geometries_of, track_geometries. intros H.
  change (map feature_line (features_of b)) with
    (map (fun f => json_field "geometry" f ≫= read_line_string) (features_of b)).
  rewrite <- (map_map (json_field "geometry") (fun g => g ≫= read_line_string)).
  rewrite H, map_map, filter_kept_drawn.
  apply map_ext. intros t. apply read_track_geometry.
Qed.

Lemma track_line_located (t : track) :
  Forall (fun p : spec_float * spec_float =>
            Float64.isnan p.1 = false /\ Float64.isnan p.2 = false) (track_line t).
Proof.
  unfold track_line. apply Forall_forall. intros p Hp.
  apply list_elem_of_In, in_map_iff in Hp as ([a o] & <- & Hin).
  apply filter_In in Hin as [_ Hpos]. unfold has_position in Hpos. simpl in *.
  by destruct (Float64.isnan a), (Float64.isnan o).
Qed.

Lemma lines_proper (ts : list track) :
  Forall proper_line (map (fun t => Some (track_line t)) (List.filter drawn ts)).
Proof.
  apply Forall_forall. intros l Hl.
  apply list_elem_of_In, in_map_iff in Hl as (t & <- & Hin).
  apply filter_In in Hin as [_ Hdrawn]. unfold drawn in Hdrawn.
  exists (track_line t). split; [done |].
  split; [by apply Nat.leb_le | apply track_line_located].
Qed.

Lemma historical_feature_reads (py : python) (b : string) (y : Z) (t : track)
    (cats : list Z) (f : json) :
  historical_feature py b y t (valid_coordinates t) cats = inr f ->
  feature_line f = Some (track_line t) /\
  property_of "sid" f = JStr <$> sid t /\
  property_of "category" f = Some (JInt (max_category cats)) /\
  is_Some (property_of "max_wind" f).
Proof.
  intros Hf. split.
  { unfold feature_line. rewrite (historical_feature_geometry _ _ _ _ _ _ _ Hf).
    apply read_track_geometry. }
  revert Hf. unfold historical_feature, track_sid.
  destruct (sid t) as [sid_v|]; unfold_result; [| by destruct (name t)].
  destruct (max_sustained_wind t) as [winds|].
  - destruct (np_nanmax py winds); [by destruct (name t) |].
    destruct (name t); intros [= <-]; by repeat split.
  - destruct (name t); intros [= <-]; by repeat split.
Qed.

Lemma historical_tracks_read (py : python) (b : string) (y : Z) (ts : list track)
    (fs : list json) :
  foldM (historical_track py b y) [] ts = inr fs ->
  Forall2 (fun f t =>
             feature_line f = Some (track_line t) /\
             property_of "sid" f = JStr <$> sid t /\
             (exists c : Z, property_of "category" f = Some (JInt c)) /\
             is_Some (property_of "max_wind" f))
          fs (List.filter drawn ts).
Proof.
  intros H. apply historical_tracks_exact in H as (fs' & -> & Hall). simpl.
  rewrite <- filter_kept_drawn. eapply Forall2_impl; [exact Hall |].
  intros f t Hf. apply historical_feature_reads in Hf as (H1 & H2 & H3 & H4).
  repeat split; eauto.
Qed.

Lemma historical_collection_reads (py : python) (b : string) (y1 y2 : Z)
    (ts : list track) (fs : list json) :
  foldM (historical_track py b y1) [] ts = inr fs ->
  let v := historical_collection b y1 y2 fs in
  map feature_line (features_of v)
  = map (fun t => Some (track_line t)) (List.filter drawn ts) /\
  property_of "count" v = Some (JInt (Z.of_nat (length (features_of v)))).
Proof.
  intros H v. destruct (historical_collection_of py b y1 y2 ts fs H) as [_ [Hg Hc]].
  split; [by apply lines_of_geometries | exact Hc].
Qed.

Lemma error_response_reads (e : exn) :
  status (error_response e) = 500 /\
  error_payload (body (error_response e)) /\
  features_of (body (error_response e)) = [] /\
  (forall key : string, property_of key (body (error_response e)) = None).
Proof. split; [done |]. split; [by eexists |]. by split. Qed.

(** ** Where a cached collection comes from *)

Lemma serve_cache_origin (py : python) (ep : endpoint) (lib : climada) (req : request)
    (s : state) :
  cache (serve py ep lib req s).2 = cache s \/
  (ep = HistoricalTracks /\
   exists b y1 y2 ts fs,
     historical_params py req = inr (b, y1, y2) /\
     from_ibtracs_netcdf lib (y1, y2) (JStr b) = inr ts /\
     foldM (historical_track py b y1) [] ts = inr fs /\
     cache (serve py ep lib req s).2
     = <[cache_key b y1 y2 := historical_collection b y1 y2 fs]> (cache s)).
Proof.
  destruct (serve_cache_change py ep lib req s) as [H | (-> & _)]; [by left |].
  simpl.
  destruct (historical_params py req) as [e|[[b y1] y2]] eqn:Hp.
  { left. by rewrite (historical_bad_params _ _ _ _ _ Hp). }
  destruct (cache s !! cache_key b y1 y2) as [v'|] eqn:Hc.
  { left. by rewrite (historical_hit _ _ _ _ _ _ _ _ Hp Hc). }
  rewrite (historical_miss _ _ _ _ _ _ _ Hp Hc). cbn zeta.
  destruct (from_ibtracs_netcdf lib (y1, y2) (JStr b)) as [e|ts] eqn:Hlib; [by left |].
  destruct (foldM (historical_track py b y1) [] ts) as [e|fs] eqn:Hfold; [by left |].
  right. split; [done |]. by exists b, y1, y2, ts, fs.
Qed.

Lemma serve_computed (py : python) (served : list (endpoint * climada * request))
    (ep : endpoint) (lib : climada) (req : request) (s : state) :
  cache_computed py served s ->
  cache_computed py (served ++ [(ep, lib, req)]) (serve py ep lib req s).2.
Proof.
  intros Hinv.
  assert (Hold : forall k v, cache s !! k = Some v ->
            exists lib' req' b y1 y2 ts fs,
              In (HistoricalTracks, lib', req') (served ++ [(ep, lib, req)]) /\
              historical_params py req' = inr (b, y1, y2) /\
              k = cache_key b y1 y2 /\
              from_ibtracs_netcdf lib' (y1, y2) (JStr b) = inr ts /\
              foldM (historical_track py b y1) [] ts = inr fs /\
              v = historical_collection b y1 y2 fs).
  { intros k v Hk.
    destruct (Hinv k v Hk) as (lib' & req' & b & y1 & y2 & ts & fs & Hin & H).
    exists lib', req', b, y1, y2, ts, fs. split; [| exact H].
    apply in_or_app. by left. }
  intros k v.
  destruct (serve_cache_origin py ep lib req s)
    as [-> | (-> & b & y1 & y2 & ts & fs & Hp & Hlib & Hfold & ->)]; [apply Hold |].
  destruct (decide (cache_key b y1 y2 = k)) as [<- | Hne].
  - rewrite lookup_insert_eq. intros [= <-].
    exists lib, req, b, y1, y2, ts, fs. split; [| done].
    apply in_or_app. right. by left.
  - rewrite lookup_insert_ne by done. apply Hold.
Qed.

Lemma run_computed (py : python) (reqs served : list (endpoint * climada * request))
    (s : state) :
  cache_computed py served s -> cache_computed py (served ++ reqs) (run py reqs s).
Proof.
  revert served s. induction reqs as [|[[ep lib] req] rest IH]; intros served s Hinv.
  - by rewrite app_nil_r.
  - simpl.
    replace (served ++ (ep, lib, req) :: rest)
      with ((served ++ [(ep, lib, req)]) ++ rest) by (by rewrite <- app_assoc).
    apply IH. by apply serve_computed.
Qed.

Lemma initial_computed (py : python) : cache_computed py [] initial_state.
Proof. intros k v. simpl. by rewrite lookup_empty. Qed.

(** A historical-tracks response answered 200 by a server started with an
    empty cache is the collection computed for its parameters by this
    request or by an earlier one. *)
Lemma historical_response_origin (py : python)
    (earlier : list (endpoint * climada * request)) (lib : climada) (req : request) :
  let r := (get_historical_tracks py lib req (run py earlier initial_state)).1 in
  status r = 200 ->
  exists lib' req' b y1 y2 ts fs,
    In (HistoricalTracks, lib', req') (earlier ++ [(HistoricalTracks, lib, req)]) /\
    historical_params py req = inr (b, y1, y2) /\
    historical_params py req' = inr (b, y1, y2) /\
    from_ibtracs_netcdf lib' (y1, y2) (JStr b) = inr ts /\
    foldM (historical_track py b y1) [] ts = inr fs /\
    body r = historical_collection b y1 y2 fs.
Proof.
  intros r Hok. subst r. set (s := run py earlier initial_state) in *.
  destruct (get_historical_tracks py lib req s) as [r s'] eqn:Hrun. simpl in Hok |- *.
  destruct (historical_success _ _ _ _ _ _ Hrun Hok) as (b & y1 & y2 & Hp & Hc & _).
  assert (Hinv : cache_computed py (earlier ++ [(HistoricalTracks, lib, req)]) s').
  { assert (s' = (serve py HistoricalTracks lib req s).2) as ->
      by (simpl; by rewrite Hrun).
    apply serve_computed.
    apply (run_computed py earlier [] initial_state), initial_computed. }
  destruct (Hinv _ _ Hc)
    as (lib' & req' & b' & y1' & y2' & ts & fs & Hin & Hp' & Hk & Hlib & Hfold & Hv).
  apply cache_key_inj in Hk as (-> & -> & ->).
  by exists lib', req', b', y1', y2', ts, fs.
Qed.

(** What a historical-tracks request that finds its key missing answers,
    once the library has returned its tracks. *)
Lemma historical_computed (py : python) (lib : climada) (req : request) (s : state)
    (b : string) (y1 y2 : Z) (ts : list track) :
  historical_params py req = inr (b, y1, y2) ->
  cache s !! cache_key b y1 y2 = None ->
  from_ibtracs_netcdf lib (y1, y2) (JStr b) = inr ts ->
  let r := (get_historical_tracks py lib req s).1 in
  (exists fs, foldM (historical_track py b y1) [] ts = inr fs /\
              r = ok (historical_collection b y1 y2 fs)) \/
  (exists e, foldM (historical_track py b y1) [] ts = inl e /\ r = error_response e).
Proof.
  intros Hp Hc Hlib r. subst r.
  rewrite (historical_miss _ _ _ _ _ _ _ Hp Hc), Hlib. cbn zeta.
  destruct (foldM (historical_track py b y1) [] ts) as [e|fs]; [right | left]; eauto.
Qed.

(** ** The translation of the library's tracks *)




(** ** What the wrapper does to the library's tracks *)

(** C7, as written, fails: of the two tracks the library returns, the
    historical-tracks response keeps one (the other has two points), and of
    60 synthetic tracks the synthetic-tracks response shows 50. *)
Lemma tracks_filtered_and_truncated :
  let lib := Sample.library [Sample.storm; Sample.short_storm] (replicate 60 Sample.storm) in
  let req := Sample.post (JObj []) in
  (from_ibtracs_netcdf lib (2010, 2020) (JStr "NA") = inr [Sample.storm; Sample.short_storm] /\
   length (features_of
             (body (get_historical_tracks Sample.py lib (Sample.get []) initial_state).1))
   = 1%nat) /\
  (synthetic_library_tracks Sample.py lib req = inr (replicate 60 Sample.storm) /\
   length (features_of (body (generate_synthetic_tracks Sample.py lib req initial_state).1))
   = 50%nat).
Proof. intros lib req. repeat split; by vm_compute. Qed.

(** C7, amended. The features of a response answered 200 follow the
    library's tracks in the library's order, but not unmodified.  On the
    historical-tracks route, in a server started with an empty cache, the
    features are made one for one and in order from the tracks, among those
    the library returned for the basin and years of the request, that have
    at least 3 points with a non-NaN latitude and longitude; the library's
    answer is the one given to this request when its key was missing, and
    otherwise the one given to the earlier request that filled the cache,
    whatever the library would answer now.  Each feature holds the
    [[lon, lat]] pairs of those points of its track unchanged and in order,
    carries the track's sid, and is augmented with a 'category' and a
    'max_wind'.  On the synthetic-tracks route the features are made one for
    one and in order from such tracks among the first 50 synthetic tracks,
    each named after the index of its track.  Tracks with fewer than 3 such
    points are filtered out and synthetic tracks beyond the 50th are
    truncated; no track is reordered and no feature is made from anything
    else. *)
Theorem library_tracks_in_order (py : python) (lib : climada) (req : request) :
  (forall (earlier : list (endpoint * climada * request)),
     let s := run py earlier initial_state in
     let r := (get_historical_tracks py lib req s).1 in
     status r = 200 ->
     exists lib' req' b y1 y2 ts,
       In (HistoricalTracks, lib', req') (earlier ++ [(HistoricalTracks, lib, req)]) /\
       historical_params py req = inr (b, y1, y2) /\
       historical_params py req' = inr (b, y1, y2) /\
       from_ibtracs_netcdf lib' (y1, y2) (JStr b) = inr ts /\
       (cache s !! cache_key b y1 y2 = None -> lib' = lib) /\
       Forall2 (fun f t =>
                  feature_line f = Some (track_line t) /\
                  property_of "sid" f = JStr <$> sid t /\
                  (exists c : Z, property_of "category" f = Some (JInt c)) /\
                  is_Some (property_of "max_wind" f))
               (features_of (body r)) (List.filter drawn ts)) /\
  (forall (s : state),
     let r := (generate_synthetic_tracks py lib req s).1 in
     status r = 200 ->
     exists synth,
       synthetic_library_tracks py lib req = inr synth /\
       Forall2 (fun (f : json) (it : nat * track) =>
                  feature_line f = Some (track_line it.2) /\
                  property_of "name" f
                  = Some (JStr ("Synthetic_" +:+ str_of_Z (Z.of_nat it.1))))
               (features_of (body r))
               (List.filter (fun it : nat * track => drawn it.2)
                  (enumerate_from 0 (take 50 synth)))).
Proof.
  split.
  - intros earlier s r Hok. subst r s.
    destruct (historical_response_origin py earlier lib req Hok)
      as (lib' & req' & b & y1 & y2 & ts & fs & Hin & Hp & Hp' & Hlib & Hfold & Hr).
    set (s := run py earlier initial_state) in *.
    destruct (cache s !! cache_key b y1 y2) as [v|] eqn:Hc.
    + exists lib', req', b, y1, y2, ts. repeat (split; [done |]).
      split; [by rewrite Hc |].
      rewrite Hr. apply (historical_tracks_read py b y1 ts fs Hfold).
    + destruct (from_ibtracs_netcdf lib (y1, y2) (JStr b)) as [e|ts0] eqn:Hlib0.
      { revert Hok. rewrite (historical_miss _ _ _ _ _ _ _ Hp Hc), Hlib0. done. }
      destruct (historical_computed py lib req s b y1 y2 ts0 Hp Hc Hlib0)
        as [(fs0 & Hfold0 & Hr0) | (e & _ & Hr0)].
      * exists lib, req, b, y1, y2, ts0.
        split; [apply in_or_app; right; by left |].
        repeat (split; [done |]).
        rewrite Hr0. apply (historical_tracks_read py b y1 ts0 fs0 Hfold0).
      * rewrite Hr0 in Hok. discriminate Hok.
  - intros s r Hok. subst r.
    destruct (synthetic_outcome py lib req s) as [[e He] | (sc & synth & _ & Hlib & Hr)].
    { rewrite He in Hok. discriminate Hok. }
    exists synth. split; [exact Hlib |].
    rewrite Hr. cbn [body ok]. rewrite features_of_synthetic.
    unfold shown_features. rewrite take_min_length.
    rewrite (List.filter_ext (fun it : nat * track => kept it.2)
               (fun it : nat * track => drawn it.2)) by (intros it; apply kept_drawn).
    apply Forall2_fmap_l, Forall_Forall2_diag, Forall_forall.
    intros [i t] _. split; [apply read_track_geometry | reflexivity].
Qed.

Lemma library_tracks_in_order_witness :
  let lib := Sample.library [Sample.short_storm; Sample.storm] [] in
  let earlier := [(HistoricalTracks, lib, Sample.get [])] in
  let r := (get_historical_tracks Sample.py Sample.failing_library (Sample.get [])
              (run Sample.py earlier initial_state)).1 in
  status r = 200 /\
  exists lib' ts,
    from_ibtracs_netcdf lib' (2010, 2020) (JStr "NA") = inr ts /\
    Forall2 (fun f t => feature_line f = Some (track_line t))
            (features_of (body r)) (List.filter drawn ts).
Proof.
  intros lib earlier r.
  assert (Hok : status r = 200) by (by vm_compute).
  split; [exact Hok |].
  destruct (proj1 (library_tracks_in_order Sample.py Sample.failing_library (Sample.get []))
              earlier Hok)
    as (lib' & req' & b & y1 & y2 & ts & _ & Hp & _ & Hlib & _ & Hall).
  injection Hp as <- <- <-.
  exists lib', ts. split; [exact Hlib |].
  eapply Forall2_impl; [exact Hall |]. by intros f t [H _].
Defined.

(** ** The lines of a response *)

(** X8. No response carries a degenerate line or a NaN coordinate: in a
    server started with an empty cache, every feature of a historical-tracks
    response answered 200 (computed or cached), and of a synthetic-tracks
    response answered 200, has a geometry of type 'LineString' whose
    coordinates are at least three arrays of two floats, and no float of any
    of them is NaN. *)
Theorem lines_are_proper
    (py : python) (earlier : list (endpoint * climada * request))
    (lib : climada) (req : request) :
  let s := run py earlier initial_state in
  (status (get_historical_tracks py lib req s).1 = 200 ->
   Forall proper_line
     (map feature_line (features_of (body (get_historical_tracks py lib req s).1)))) /\
  (status (generate_synthetic_tracks py lib req s).1 = 200 ->
   Forall proper_line
     (map feature_line (features_of (body (generate_synthetic_tracks py lib req s).1)))).
Proof.
  intros s. split.
  - intros Hok.
    destruct (historical_response_origin py earlier lib req Hok)
      as (lib' & req' & b & y1 & y2 & ts & fs & _ & _ & _ & _ & Hfold & Hr).
    subst s. rewrite Hr.
    rewrite (proj1 (historical_collection_reads py b y1 y2 ts fs Hfold)).
    apply lines_proper.
  - intros Hok.
    destruct (synthetic_outcome py lib req s) as [[e He] | (sc & synth & _ & _ & Hr)].
    { rewrite He in Hok. discriminate Hok. }
    rewrite Hr. cbn [body ok].
    rewrite (lines_of_geometries _ _ (geometries_of_shown sc synth (length synth))).
    apply lines_proper.
Qed.

Lemma lines_are_proper_witness :
  let lib := Sample.library [Sample.storm; Sample.short_storm] [] in
  let s := run Sample.py [(HistoricalTracks, lib, Sample.get [])] initial_state in
  let r := (get_historical_tracks Sample.py Sample.failing_library (Sample.get []) s).1 in
  (status r = 200 /\ length (features_of (body r)) = 1%nat) /\
  Forall proper_line (map feature_line (features_of (body r))).
Proof.
  intros lib s r.
  assert (Hok : status r = 200) by (by vm_compute).
  split; [split; [exact Hok | by vm_compute] |].
  exact (proj1 (lines_are_proper Sample.py [(HistoricalTracks, lib, Sample.get [])]
                  Sample.failing_library (Sample.get [])) Hok).
Defined.

(** ** The display limit of the synthetic-tracks route *)

(** C9, as written, fails.  A request whose body is the JSON array [[]] is
    answered with the error payload and status 500: no feature is emitted,
    and the response has no 'displayed_tracks' to equal that number.  And
    when the library has produced its synthetic tracks but one of the first
    50 cannot be read (here the only one, which has fewer longitudes than
    latitudes), the response is again the error payload: it has no
    'total_tracks', although the library produced one track. *)
Lemma synthetic_counts_need_success :
  let r1 := (generate_synthetic_tracks Sample.py (Sample.library [] [Sample.storm])
               (Sample.post (JArr [])) initial_state).1 in
  let lib2 := Sample.library [] [Sample.ragged_storm] in
  let req2 := Sample.post (JObj []) in
  let r2 := (generate_synthetic_tracks Sample.py lib2 req2 initial_state).1 in
  (r1 = Response (JObj [("error", JStr "'list' object has no attribute 'get'")]) 500 /\
   length (features_of (body r1)) = 0%nat /\
   property_of "displayed_tracks" (body r1) = None) /\
  (synthetic_library_tracks Sample.py lib2 req2 = inr [Sample.ragged_storm] /\
   r2 = Response (JObj [("error", JStr "index 1 is out of bounds for axis 0 with size 1")])
          500 /\
   property_of "total_tracks" (body r2) = None).
Proof. intros r1 lib2 req2 r2. repeat split; by vm_compute. Qed.

(** C9, amended. Every synthetic-tracks response carries at most 50
    features.  A response answered 200, with [synth] the synthetic tracks
    the library produced, shows only tracks among the first
    min(50, len(synth)): its features are those of the tracks among them
    that have at least 3 located points, in order, 'displayed_tracks' is the
    number of features, which is at most min(50, len(synth)), and
    'total_tracks' is len(synth).  Any other response is the error payload
    with status 500, which has no feature, no 'displayed_tracks' and no
    'total_tracks'. *)
Theorem synthetic_display_limit (py : python) (lib : climada) (req : request) (s : state) :
  let r := (generate_synthetic_tracks py lib req s).1 in
  (length (features_of (body r)) <= 50)%nat /\
  ((status r = 200 /\
    exists scenario synth,
      requested_scenario req = inr scenario /\
      synthetic_library_tracks py lib req = inr synth /\
      features_of (body r) = shown_features scenario synth /\
      map feature_line (features_of (body r))
      = map (fun t => Some (track_line t))
            (List.filter drawn (take (Nat.min 50 (length synth)) synth)) /\
      (length (features_of (body r)) <= Nat.min 50 (length synth))%nat /\
      property_of "displayed_tracks" (body r)
      = Some (JInt (Z.of_nat (length (features_of (body r))))) /\
      property_of "total_tracks" (body r) = Some (JInt (Z.of_nat (length synth)))) \/
   (status r = 500 /\
    error_payload (body r) /\
    features_of (body r) = [] /\
    property_of "displayed_tracks" (body r) = None /\
    property_of "total_tracks" (body r) = None)).
Proof.
  intros r. subst r.
  destruct (synthetic_outcome py lib req s) as [[e ->] | (sc & synth & Hsc & Hlib & ->)].
  - destruct (error_response_reads e) as (H1 & H2 & H3 & H4).
    rewrite H3. split; [simpl; lia |]. right. by repeat split.
  - pose proof (shown_features_length sc synth) as Hlen.
    change (body (ok ?v)) with v. rewrite features_of_synthetic.
    split; [lia |]. left. split; [done |]. exists sc, synth.
    repeat (split; [done |]).
    split; [| by repeat split].
    rewrite <- (features_of_synthetic sc (shown_features sc synth) (length synth)).
    apply lines_of_geometries, geometries_of_shown.
Qed.

Lemma synthetic_display_limit_witness :
  let lib := Sample.library [] (replicate 60 Sample.storm ++ [Sample.short_storm]) in
  let req := Sample.post (JObj [("scenario", JStr "rcp85"); ("years", JInt 80)]) in
  let r := (generate_synthetic_tracks Sample.py lib req initial_state).1 in
  status r = 200 /\
  length (features_of (body r)) = 50%nat /\
  property_of "displayed_tracks" (body r) = Some (JInt 50) /\
  property_of "total_tracks" (body r) = Some (JInt 61).
Proof.
  intros lib req r.
  assert (Hn : length (features_of (body r)) = 50%nat) by (by vm_compute).
  destruct (proj2 (synthetic_display_limit Sample.py lib req initial_state))
    as [(Hok & sc & synth & _ & Hlib & _ & _ & _ & Hshown & Htotal) | (Hno & _)];
    [| discriminate Hno].
  split; [exact Hok |]. split; [exact Hn |].
  fold r in Hshown, Htotal. rewrite Hn in Hshown.
  split; [exact Hshown |].
  rewrite Htotal. injection Hlib as <-. reflexivity.
Defined.

(** ** The library calls of a request *)

(** X4. What each route asks of the library, for every request.  The
    wind-field and return-periods routes never call it.  The version route
    reads the version once.  The historical-tracks route calls
    [from_ibtracs_netcdf] once, with the years and basin of the request,
    when its parameters parse and the key is missing, and not at all
    otherwise.  The synthetic-tracks route makes no call when its body is
    not a JSON object; otherwise it loads the years 1980 to 2020 for the
    basin of the body ('NA' when absent), whatever the rest of the request,
    and, when that call returns and [int(years / 40)] can be computed,
    perturbs with that number.  The impact route makes no call when its
    body is not a JSON object; otherwise it loads the exposure of the
    country of the body ('USA' when absent) and, when that call returns,
    builds the impact function set. *)
Theorem library_calls_per_request
    (py : python) (ep : endpoint) (lib : climada) (req : request) (s : state) :
  exists added,
    new_calls s (serve py ep lib req s).2 added /\
    match ep with
    | WindField | ReturnPeriods => added = []
    | Version => added = [CallVersion]
    | HistoricalTracks =>
        match historical_params py req with
        | inl _ => added = []
        | inr (b, y1, y2) =>
            added = match cache s !! cache_key b y1 y2 with
                    | Some _ => []
                    | None => [CallIbtracs (y1, y2) (JStr b)]
                    end
        end
    | SyntheticTracks =>
        match json_body req with
        | inr (JObj fields) =>
            let basin := default (JStr "NA") (assoc "basin" fields) in
            let n_years := default (JInt 100) (assoc "years" fields) in
            added = match from_ibtracs_netcdf lib (1980, 2020) basin,
                          int_truediv py n_years 40 with
                    | inr _, inr nb => [CallIbtracs (1980, 2020) basin; CallPerturbed nb]
                    | _, _ => [CallIbtracs (1980, 2020) basin]
                    end
        | _ => added = []
        end
    | Impact =>
        match json_body req with
        | inr (JObj fields) =>
            let country := default (JStr "USA") (assoc "country" fields) in
            added = match litpop_from_countries lib country with
                    | inr _ => [CallLitPop country; CallImpactFuncSet]
                    | inl _ => [CallLitPop country]
                    end
        | _ => added = []
        end
    end.
Proof.
  unfold new_calls. destruct ep; simpl.
  - exists [CallVersion]. split; [| done].
    unfold get_version, get_version_body. unfold_M.
    by destruct (climada_version lib).
  - destruct (historical_params py req) as [e|[[b y1] y2]] eqn:Hp.
    { exists []. rewrite (historical_bad_params _ _ _ _ _ Hp). by rewrite app_nil_r. }
    destruct (cache s !! cache_key b y1 y2) as [v'|] eqn:Hc.
    { exists []. rewrite (historical_hit _ _ _ _ _ _ _ _ Hp Hc). by rewrite app_nil_r. }
    exists [CallIbtracs (y1, y2) (JStr b)]. split; [| done].
    rewrite (historical_miss _ _ _ _ _ _ _ Hp Hc). cbn zeta.
    destruct (from_ibtracs_netcdf lib (y1, y2) (JStr b)) as [e|ts]; [done |].
    by destruct (foldM (historical_track py b y1) [] ts).
  - rewrite synthetic_run.
    destruct (json_body req) as [e|data];
      [exists []; split; [by rewrite app_nil_r | done] |].
    destruct data;
      try (exists []; split; [by rewrite app_nil_r | done]).
    cbv zeta.
    destruct (from_ibtracs_netcdf lib _ _) as [e|ts];
      [eexists; split; [reflexivity | done] |].
    destruct (int_truediv py _ _) as [e|nb];
      [eexists; split; [reflexivity | done] |].
    destruct (calc_perturbed_trajectories lib _ _) as [e|synth];
      [eexists; split; [simpl; by rewrite <- app_assoc | done] |].
    destruct (foldM _ _ _);
      (eexists; split; [simpl; by rewrite <- app_assoc | done]).
  - unfold calculate_wind_field, calculate_wind_field_body. unfold_M.
    exists []. split; [| done]. rewrite app_nil_r.
    repeat (case_match; simplify_eq/=; try done).
  - rewrite impact_run.
    destruct (json_body req) as [e|data];
      [exists []; split; [by rewrite app_nil_r | done] |].
    destruct data;
      try (exists []; split; [by rewrite app_nil_r | done]).
    cbv zeta.
    destruct (litpop_from_countries lib _) as [e|exposure];
      [eexists; split; [reflexivity | done] |].
    destruct (impact_func_set lib);
      (eexists; split; [simpl; by rewrite <- app_assoc | done]).
  - unfold get_return_periods, get_return_periods_body. unfold_M.
    exists []. split; [| done]. rewrite app_nil_r.
    repeat (case_match; simplify_eq/=; try done).
Qed.

(** ** Error handling *)

Lemma serve_try_except (py : python) (ep : endpoint) (lib : climada) (req : request) :
  serve py ep lib req = try_except (handler_body py ep lib req).
Proof. by destruct ep. Qed.

Lemma historical_params_year_min (py : python) (req : request) (t : string) (e : exn) :
  assoc "year_min" (args req) = Some t ->
  py_int py t = inl e ->
  historical_params py req = inl e.
Proof.
  intros Ha Hi. unfold historical_params, int_arg. by rewrite Ha, Hi.
Qed.

Lemma historical_params_year_max (py : python) (req : request) (t : string) (e : exn) :
  match assoc "year_min" (args req) with
  | Some t0 => exists y : Z, py_int py t0 = inr y
  | None => True
  end ->
  assoc "year_max" (args req) = Some t ->
  py_int py t = inl e ->
  historical_params py req = inl e.
Proof.
  intros Hmin Ha Hi. unfold historical_params, int_arg. rewrite Ha, Hi.
  destruct (assoc "year_min" (args req)) as [t0|]; [| done].
  destruct Hmin as [y ->]. done.
Qed.

Lemma wind_field_run (req : request) (s : state) :
  calculate_wind_field req s =
    match json_body req with
    | inl e => (error_response e, s)
    | inr data =>
        match data with
        | JObj fields =>
            (ok (JObj [("status", JStr "success");
                       ("message",
                        JStr "Wind field calculation requires significant computation");
                       ("track_id", default JNull (assoc "track_id" fields));
                       ("resolution", default (JInt 10) (assoc "resolution" fields))]), s)
        | _ => (error_response
                  (Exn "AttributeError"
                     ("'" +:+ type_name data +:+ "' object has no attribute 'get'")), s)
        end
    end.
Proof.
  unfold calculate_wind_field, calculate_wind_field_body. unfold_M.
  destruct (json_body req) as [e|data]; [reflexivity |].
  by destruct data.
Qed.

(** C5. Error handling is the same on every route: an exception raised
    while the request is handled is answered with the payload whose single
    member 'error' holds [str(e)], with status 500, and a handler that
    raises nothing answers what its code returned.  The exceptions of the
    library and of input parsing reach the response in this way: a raise of
    any library entry point that the handler calls ([climada.__version__],
    [from_ibtracs_netcdf] on either track route, [calc_perturbed_trajectories],
    [LitPop.from_countries], [ImpactFuncSet]); a year_min or year_max that
    [int] rejects; a first or second part of the location that [float]
    rejects, or a location that has not two parts; a 'years' that cannot be
    divided; a body that cannot be decoded, or that decodes to something
    other than an object.  The response is a function of [str(e)] alone:
    two raises with the same string are answered alike, whatever their
    classes. *)
Theorem catch_and_500 (py : python) (lib : climada) (req : request) (s : state)
    (e : exn) :
  let payload := Response (JObj [("error", JStr (exn_str e))]) 500 in
  let caught (ep : endpoint) : Prop := (serve py ep lib req s).1 = payload in
  let location := args_get req "location" "25.7617,-80.1918" in
  (* whatever the code of a handler raises, and what it returns *)
  (forall (ep : endpoint) (s' : state),
     handler_body py ep lib req s = (inl e, s') ->
     serve py ep lib req s = (payload, s')) /\
  (forall (ep : endpoint) (r : response) (s' : state),
     handler_body py ep lib req s = (inr r, s') ->
     serve py ep lib req s = (r, s')) /\
  (forall (ep : endpoint) (lib' : climada) (req' : request) (s1 s2 s2' : state)
          (e' : exn),
     handler_body py ep lib req s = (inl e, s1) ->
     handler_body py ep lib' req' s2 = (inl e', s2') ->
     exn_str e' = exn_str e ->
     (serve py ep lib' req' s2).1 = (serve py ep lib req s).1) /\
  (* the library raises *)
  (climada_version lib = inl e -> caught Version) /\
  (forall (b : string) (y1 y2 : Z),
     historical_params py req = inr (b, y1, y2) ->
     cache s !! cache_key b y1 y2 = None ->
     from_ibtracs_netcdf lib (y1, y2) (JStr b) = inl e ->
     caught HistoricalTracks) /\
  (forall fields : list (string * json),
     json_body req = inr (JObj fields) ->
     let basin := default (JStr "NA") (assoc "basin" fields) in
     let n_years := default (JInt 100) (assoc "years" fields) in
     let country := default (JStr "USA") (assoc "country" fields) in
     (from_ibtracs_netcdf lib (1980, 2020) basin = inl e -> caught SyntheticTracks) /\
     (forall ts : list track,
        from_ibtracs_netcdf lib (1980, 2020) basin = inr ts ->
        (int_truediv py n_years 40 = inl e -> caught SyntheticTracks) /\
        (forall nb : Z,
           int_truediv py n_years 40 = inr nb ->
           calc_perturbed_trajectories lib ts nb = inl e -> caught SyntheticTracks)) /\
     (litpop_from_countries lib country = inl e -> caught Impact) /\
     (forall exp : exposure,
        litpop_from_countries lib country = inr exp ->
        impact_func_set lib = inl e -> caught Impact)) /\
  (* the input cannot be parsed *)
  (forall t : string,
     assoc "year_min" (args req) = Some t -> py_int py t = inl e ->
     caught HistoricalTracks) /\
  (forall t : string,
     match assoc "year_min" (args req) with
     | Some t0 => exists y : Z, py_int py t0 = inr y
     | None => True
     end ->
     assoc "year_max" (args req) = Some t -> py_int py t = inl e ->
     caught HistoricalTracks) /\
  (forall (a : string) (rest : list string),
     split_on "," location = a :: rest ->
     (py_float py a = inl e -> caught ReturnPeriods) /\
     (forall (lat_v : spec_float) (b : string) (rest' : list string),
        py_float py a = inr lat_v -> rest = b :: rest' -> py_float py b = inl e ->
        caught ReturnPeriods)) /\
  (length (split_on "," location) <> 2%nat ->
   exists msg : string,
     (serve py ReturnPeriods lib req s).1 = Response (JObj [("error", JStr msg)]) 500) /\
  (json_body req = inl e ->
   caught SyntheticTracks /\ caught WindField /\ caught Impact) /\
  (forall data : json,
     json_body req = inr data ->
     (forall fields : list (string * json), data <> JObj fields) ->
     forall ep : endpoint,
       ep = SyntheticTracks \/ ep = WindField \/ ep = Impact ->
       exists msg : string,
         (serve py ep lib req s).1 = Response (JObj [("error", JStr msg)]) 500).
Proof.
  intros payload caught location. subst payload caught. cbv beta.
  split; [| split; [| split]].
  { intros ep s' H. rewrite serve_try_except. unfold try_except. by rewrite H. }
  { intros ep r s' H. rewrite serve_try_except. unfold try_except. by rewrite H. }
  { intros ep lib' req' s1 s2 s2' e' H H' Hstr.
    rewrite !serve_try_except. unfold try_except. rewrite H, H'.
    unfold error_response. simpl. by rewrite Hstr. }
  split; [| split; [| split]].
  { intros Hv. simpl. unfold get_version, get_version_body. unfold_M. by rewrite Hv. }
  { intros b y1 y2 Hp Hc Hlib. simpl.
    by rewrite (historical_miss _ _ _ _ _ _ _ Hp Hc), Hlib. }
  { intros fields Hbody. cbv zeta. simpl serve.
    rewrite synthetic_run, impact_run, Hbody. cbv zeta.
    split; [by intros -> |]. split; [| split].
    - intros ts ->. split; [by intros -> |]. intros nb -> Hsynth. by rewrite Hsynth.
    - by intros ->.
    - intros exp -> Himpf. by rewrite Himpf. }
  split; [| split; [| split; [| split; [| split]]]].
  { intros t Ha Hi. simpl.
    by rewrite (historical_bad_params _ _ _ _ _ (historical_params_year_min _ _ _ _ Ha Hi)). }
  { intros t Hmin Ha Hi. simpl.
    by rewrite (historical_bad_params _ _ _ _ _
                  (historical_params_year_max _ _ _ _ Hmin Ha Hi)). }
  { intros a rest Hsplit. simpl serve.
    unfold get_return_periods, get_return_periods_body. unfold_M.
    fold location. rewrite Hsplit. unfold unpack_lat_lon. unfold_result.
    split; [by intros -> |].
    intros lat_v b rest' -> -> Hb. by rewrite Hb. }
  { intros Hlen. simpl serve.
    unfold get_return_periods, get_return_periods_body. unfold_M. fold location.
    destruct (unpack_not_two py _ Hlen) as [e' ->]. by eexists. }
  { intros Hbody. simpl serve.
    rewrite synthetic_run, wind_field_run, impact_run, Hbody. done. }
  { intros data Hbody Hobj ep Hep. 
    destruct Hep as [-> | [-> | ->]]; simpl serve;
      rewrite ?synthetic_run, ?wind_field_run, ?impact_run, Hbody;
      destruct data; try (by eexists); by destruct (Hobj fields). }
Qed.

Lemma catch_and_500_witness :
  (serve Sample.py Version Sample.failing_library (Sample.get []) initial_state).1
  = Response (JObj [("error", JStr "library raised something")]) 500 /\
  (serve Sample.py HistoricalTracks (Sample.library [Sample.storm] [])
     (Sample.get [("year_min", "next")]) initial_state).1
  = Response (JObj [("error", JStr "invalid literal for int() with base 10: 'next'")]) 500.
Proof.
  split.
  - destruct (catch_and_500 Sample.py Sample.failing_library (Sample.get [])
                initial_state Sample.broken) as (_ & _ & _ & Hversion & _).
    exact (Hversion eq_refl).
  - destruct (catch_and_500 Sample.py (Sample.library [Sample.storm] [])
                (Sample.get [("year_min", "next")]) initial_state
                (Exn "ValueError" "invalid literal for int() with base 10: 'next'"))
      as (_ & _ & _ & _ & _ & _ & Hmin & _).
    exact (Hmin "next"%string eq_refl eq_refl).
Defined.
